(** * netflixapp: the views of the streaming application, embedded in Rocq

    The development follows [netflixapp/models.py] and [netflixapp/views.py].
    Django's object mapper, [requests], [logging] and template rendering are
    collaborators of the views: they are modelled by what the views observe
    of them (rows returned, exceptions raised, effects recorded), with every
    call that can fail given an explicit way to raise. *)

From Stdlib Require Import List String Ascii Bool PeanoNat NArith Lia.
From Stdlib Require Import Permutation Sorted.
Import ListNotations.
Open Scope string_scope.
Open Scope N_scope.

Set Implicit Arguments.

(** ** Python values and exceptions *)

(** The values the configuration object holds for the names the views read. *)
Inductive pyval : Type :=
| PNone
| PBool (b : bool)
| PStr (s : string).

(** [str(v)], as an f-string interpolates it. *)
Definition py_str (v : pyval) : string :=
  match v with
  | PNone => "None"
  | PBool true => "True"
  | PBool false => "False"
  | PStr s => s
  end.

(** The exception classes that can reach the views' handlers.  Everything
    here derives from Python's [Exception]; classes of [BaseException] outside
    it (interpreter exit, keyboard interrupt) are process control, not
    failures of a request, and are not modelled. *)
Inductive exn_class : Type :=
| Exception
| RequestException          (* requests.exceptions *)
| ConnectionError
| HTTPError
| Timeout
| TooManyRedirects
| InvalidJSONError
| RequestsJSONDecodeError   (* requests.exceptions.JSONDecodeError, requests >= 2.27 *)
| ValueError
| JSONDecodeError           (* json.JSONDecodeError, what older requests let through *)
| AttributeError
| TypeError
| RuntimeError
| RecursionError
| ObjectDoesNotExist        (* django.core.exceptions *)
| Profile_DoesNotExist
| Movie_DoesNotExist
| MultipleObjectsReturned
| DatabaseError             (* django.db *)
| IntegrityError
| TemplateDoesNotExist.     (* django.template *)

(** The base class of each class (the first base where there are several). *)
Definition base (c : exn_class) : option exn_class :=
  match c with
  | Exception => None
  | RequestException => Some Exception
  | ConnectionError | HTTPError | Timeout | TooManyRedirects
  | InvalidJSONError => Some RequestException
  | RequestsJSONDecodeError => Some InvalidJSONError
  | ValueError => Some Exception
  | JSONDecodeError => Some ValueError
  | AttributeError | TypeError | RuntimeError => Some Exception
  | RecursionError => Some RuntimeError
  | ObjectDoesNotExist => Some Exception
  | Profile_DoesNotExist | Movie_DoesNotExist => Some ObjectDoesNotExist
  | MultipleObjectsReturned => Some Exception
  | DatabaseError => Some Exception
  | IntegrityError => Some DatabaseError
  | TemplateDoesNotExist => Some Exception
  end.

Definition exn_class_eq_dec (c d : exn_class) : {c = d} + {c <> d}.
Proof. decide equality. Defined.

Definition exn_class_eqb (c d : exn_class) : bool :=
  if exn_class_eq_dec c d then true else false.

Fixpoint issubclass_upto (depth : nat) (c d : exn_class) : bool :=
  exn_class_eqb c d ||
  match depth with
  | O => false
  | S depth' =>
      match base c with
      | Some b => issubclass_upto depth' b d
      | None => false
      end
  end.

(** The hierarchy above is three levels deep. *)
Definition issubclass : exn_class -> exn_class -> bool := issubclass_upto 3.

(** A raised exception: its class and [str(e)]. *)
Record exn : Type := Exn { exn_cls : exn_class; exn_str : string }.

(** [isinstance(e, C)]: what an [except C] clause tests. *)
Definition isinstance (e : exn) (C : exn_class) : bool :=
  issubclass (exn_cls e) C.

(** ** The data model ([models.py]) *)

(** A UUID, by its canonical text (what the URL carries and what an f-string
    prints). *)
Definition uuid : Type := string.

Definition AGE_CHOICES : list (string * string) :=
  [("All", "All"); ("Kids", "Kids")].

Definition MOVIE_CHOICES : list (string * string) :=
  [("seasonal", "Seasonal"); ("single", "Single")].

Record Profile : Type := {
  p_id : N;             (* primary key *)
  p_name : string;      (* CharField(max_length=200) *)
  p_age_limit : string; (* CharField(max_length=5, choices=AGE_CHOICES) *)
  p_uuid : uuid         (* UUIDField(default=uuid.uuid4, unique=True) *)
}.

Record Video : Type := {
  v_id : N;
  v_title : string;     (* CharField(max_length=200, unique=True) *)
  v_file : string       (* FileField(upload_to='movies/') *)
}.

Record Movie : Type := {
  m_id : N;
  m_title : string;
  m_description : option string;
  m_created : string;
  m_uuid : uuid;
  m_type : string;      (* choices=MOVIE_CHOICES *)
  m_image : string;
  m_age_limit : string  (* choices=AGE_CHOICES *)
}.

(** The tables, each in storage order.  The two many-to-many fields are their
    join tables: [CustomUser.profiles] holds (user, profile) rows and
    [Movie.video] holds (movie, video) rows. *)
Record Store : Type := {
  Profile_table : list Profile;
  Movie_table : list Movie;
  Video_table : list Video;
  CustomUser_profiles : list (N * N);
  Movie_video : list (N * N)
}.

(** The rows of [table] that the join table [rel] relates to [key], one per
    join row. *)
Definition joined (A : Type) (pk : A -> N) (rel : list (N * N)) (key : N)
    (table : list A) : list A :=
  flat_map (fun row : N * N =>
              if fst row =? key
              then filter (fun r => pk r =? snd row) table
              else [])
           rel.

Fixpoint insert_by {A : Type} (rank : A -> N) (x : A) (l : list A) : list A :=
  match l with
  | [] => [x]
  | y :: rest =>
      if rank x <=? rank y then x :: y :: rest
      else y :: insert_by rank x rest
  end.

Fixpoint sort_by {A : Type} (rank : A -> N) (l : list A) : list A :=
  match l with
  | [] => []
  | x :: rest => insert_by rank x (sort_by rank rest)
  end.

(** What a query on a many-to-many field answers.  The queries of the views
    carry no ORDER BY, so the order of the answer is the database's: it is
    given by [rank], the place the database gives each primary key. *)
Definition related (A : Type) (pk : A -> N) (rank : N -> N)
    (rel : list (N * N)) (key : N) (table : list A) : list A :=
  sort_by (fun r => rank (pk r)) (joined pk rel key table).

(** ** The environment of a request *)

(** What [requests.get] comes back with. *)
Inductive transport_failure : Type :=
| ConnectionFailed
| TimedOut
| RedirectLoop.

Set Warnings "-register-all".

(** A decoded JSON document.  [JObj] is the dict [json.loads] builds (each key
    once), [JArr] a list. *)
Inductive json : Type :=
| JNull
| JBool (b : bool)
| JNum (n : N)
| JStr (s : string)
| JArr (items : list json)
| JObj (members : list (string * json)).

(** Why [json.loads] fails on a body: it is not JSON, it nests deeper than
    the interpreter recurses, or it holds an integer of more digits than the
    interpreter converts. *)
Inductive decode_error : Type :=
| NotJSON
| TooDeep
| IntegerTooLong.

(** An HTTP response: its status code and, of its body, what decoding it as
    JSON gives; when decoding fails ([None]), [body_error] says why (it is
    not read otherwise). *)
Record Response : Type := {
  status_code : N;
  body_json : option json;
  body_error : decode_error
}.

Inductive http_outcome : Type :=
| Failed (f : transport_failure) (msg : string)
| Responded (r : Response).

(** The database calls the views make. *)
Inductive db_op : Type :=
| Profile_get
| Profile_create
| user_profiles_all
| user_profiles_add
| Movie_get
| movie_video_values.

Record World : Type := {
  settings : list (string * pyval);       (* django.conf.settings *)
  http : string -> http_outcome;          (* the provider, per URL *)
  json_error_is_RequestException : bool;  (* requests >= 2.27 *)
  db_fault : db_op -> option exn;         (* a database call that fails *)
  db_order : db_op -> N -> N;             (* the order of a query's answer *)
  render_fault : string -> option exn;    (* a template that fails *)
  uuid4 : uuid                            (* the next uuid.uuid4() *)
}.

(** What a view leaves behind besides its response. *)
Inductive Level : Type := WARNING | ERROR.

Inductive Event : Type :=
| Log (level : Level) (msg : string)     (* logger.warning / logger.error *)
| HttpGet (url : string) (timeout : N)   (* requests.get(url, timeout=...) *)
| Inserted (p : Profile)                 (* a Profile row was created *)
| AddCalled (user_pk profile_pk : N).    (* user.profiles.add was called *)

Record State : Type := {
  store : Store;
  trace : list Event   (* oldest first *)
}.

(** ** Computations that can raise *)

Inductive Outcome (A : Type) : Type :=
| Returned (a : A)
| Raised (e : exn).
Arguments Returned {A} a.
Arguments Raised {A} e.

Definition M (A : Type) : Type := World -> State -> Outcome A * State.

Definition ret {A : Type} (a : A) : M A := fun _ s => (Returned a, s).

Definition raise {A : Type} (e : exn) : M A := fun _ s => (Raised e, s).

Definition bind {A B : Type} (m : M A) (k : A -> M B) : M B :=
  fun w s =>
    match m w s with
    | (Returned a, s') => k a w s'
    | (Raised e, s') => (Raised e, s')
    end.

Notation "x <- c1 ;; c2" := (bind c1 (fun x => c2))
  (at level 61, c1 at next level, right associativity).
Notation "c1 ;; c2" := (bind c1 (fun _ => c2))
  (at level 61, right associativity).

(** One [except C as e: handler] clause. *)
Record except_clause (A : Type) : Type := Except {
  catches : exn_class;
  handler : exn -> M A
}.

(** The first clause whose class the exception is an instance of. *)
Fixpoint find_clause {A : Type} (clauses : list (except_clause A)) (e : exn)
    : option (exn -> M A) :=
  match clauses with
  | [] => None
  | c :: rest =>
      if isinstance e (catches c) then Some (handler c)
      else find_clause rest e
  end.

(** [try: body except ...]: an exception of the body goes to the first
    matching clause, with the effects of the body kept; an exception of a
    handler, or one no clause matches, leaves the statement. *)
Definition try_except {A : Type} (body : M A)
    (clauses : list (except_clause A)) : M A :=
  fun w s =>
    match body w s with
    | (Returned a, s') => (Returned a, s')
    | (Raised e, s') =>
        match find_clause clauses e with
        | Some h => h e w s'
        | None => (Raised e, s')
        end
    end.

Definition ask : M World := fun w s => (Returned w, s).

Definition get_store : M Store := fun _ s => (Returned (store s), s).

Definition put_store (st : Store) : M unit :=
  fun _ s => (Returned tt, {| store := st; trace := trace s |}).

Definition emit (ev : Event) : M unit :=
  fun _ s => (Returned tt, {| store := store s; trace := trace s ++ [ev] |}).

(** A call that fails when the environment says so. *)
Definition may_fail (fault : World -> option exn) : M unit :=
  fun w s =>
    match fault w with
    | Some e => (Raised e, s)
    | None => (Returned tt, s)
    end.

(** ** The collaborators, as the views call them *)

Fixpoint lookup {V : Type} (key : string) (d : list (string * V)) : option V :=
  match d with
  | [] => None
  | (k, v) :: rest => if String.eqb k key then Some v else lookup key rest
  end.

(** *** logging *)

Definition logger_warning (msg : string) : M unit := emit (Log WARNING msg).

Definition logger_error (msg : string) : M unit := emit (Log ERROR msg).

(** *** django.conf.settings *)

(** [settings.NAME] *)
Definition settings_attr (name : string) : M pyval :=
  w <- ask;;
  match lookup name (settings w) with
  | Some v => ret v
  | None =>
      raise (Exn AttributeError
               ("'Settings' object has no attribute '" ++ name ++ "'"))
  end.

(** [getattr(settings, NAME, None)] *)
Definition settings_getattr (w : World) (name : string) : pyval :=
  match lookup name (settings w) with
  | Some v => v
  | None => PNone
  end.

(** *** requests *)

(** Every failure of [requests.get] is a [RequestException]. *)
Definition transport_exn (f : transport_failure) (msg : string) : exn :=
  match f with
  | ConnectionFailed => Exn ConnectionError msg
  | TimedOut => Exn Timeout msg
  | RedirectLoop => Exn TooManyRedirects msg
  end.

(** [requests.get(url, timeout=timeout)]: one request leaves. *)
Definition requests_get (url : string) (timeout : N) : M Response :=
  emit (HttpGet url timeout);;
  w <- ask;;
  match http w url with
  | Failed f msg => raise (transport_exn f msg)
  | Responded r => ret r
  end.

(** [response.raise_for_status()]: 4xx and 5xx raise, every other status
    passes. *)
Definition raise_for_status (response : Response) : M unit :=
  if (400 <=? status_code response) && (status_code response <? 500)
  then raise (Exn HTTPError "Client Error")
  else if (500 <=? status_code response) && (status_code response <? 600)
  then raise (Exn HTTPError "Server Error")
  else ret tt.

(** [response.json()]: of the failures of [json.loads], requests (from
    2.27 on) translates the [JSONDecodeError] into its own; the others pass
    as they are. *)
Definition Response_json (response : Response) : M json :=
  match body_json response with
  | Some data => ret data
  | None =>
      match body_error response with
      | NotJSON =>
          w <- ask;;
          if json_error_is_RequestException w
          then raise (Exn RequestsJSONDecodeError "Expecting value")
          else raise (Exn JSONDecodeError "Expecting value")
      | TooDeep =>
          raise (Exn RecursionError "maximum recursion depth exceeded")
      | IntegerTooLong =>
          raise (Exn ValueError
                   "Exceeds the limit for integer string conversion")
      end
  end.

Definition type_name (j : json) : string :=
  match j with
  | JNull => "NoneType"
  | JBool _ => "bool"
  | JNum _ => "int"
  | JStr _ => "str"
  | JArr _ => "list"
  | JObj _ => "dict"
  end.

(** [data.get(key, default)]: only a dict has [get]. *)
Definition data_get (data : json) (key : string) (default : json) : M json :=
  match data with
  | JObj members =>
      ret (match lookup key members with Some v => v | None => default end)
  | _ =>
      raise (Exn AttributeError
               ("'" ++ type_name data ++ "' object has no attribute 'get'"))
  end.

(** *** The object mapper *)

(** [Model.objects.get(...)]: the one row that matches. *)
Definition objects_get {A : Type} (op : db_op) (table : Store -> list A)
    (matches : A -> bool) (DoesNotExist : exn) : M A :=
  may_fail (fun w => db_fault w op);;
  st <- get_store;;
  match filter matches (table st) with
  | [] => raise DoesNotExist
  | [row] => ret row
  | _ :: _ :: _ =>
      raise (Exn MultipleObjectsReturned "get() returned more than one row")
  end.

Definition Profile_objects_get (id : uuid) : M Profile :=
  objects_get Profile_get Profile_table
    (fun p => String.eqb (p_uuid p) id)
    (Exn Profile_DoesNotExist "Profile matching query does not exist.").

Definition Movie_objects_get (id : uuid) : M Movie :=
  objects_get Movie_get Movie_table
    (fun m => String.eqb (m_uuid m) id)
    (Exn Movie_DoesNotExist "Movie matching query does not exist.").

Record User : Type := {
  user_pk : N;
  is_authenticated : bool
}.

(** [user.profiles.all()], evaluated. *)
Definition user_profiles (user : User) : M (list Profile) :=
  may_fail (fun w => db_fault w user_profiles_all);;
  w <- ask;;
  st <- get_store;;
  ret (related p_id (db_order w user_profiles_all)
         (CustomUser_profiles st) (user_pk user) (Profile_table st)).

(** [profile in queryset]: model instances are equal when their primary keys
    are. *)
Definition Profile_in (profile : Profile) (queryset : list Profile) : bool :=
  existsb (fun q => p_id q =? p_id profile) queryset.

(** The fields a profile is created from. *)
Record ProfileFields : Type := {
  name : string;
  age_limit : string
}.

Definition next_pk (table : list Profile) : N :=
  N.succ (fold_right N.max 0 (map p_id table)).

(** [Profile.objects.create] on the cleaned fields: a row with a fresh primary key and a
    fresh UUID; the unique constraint on the UUID is the database's. *)
Definition Profile_objects_create (fields : ProfileFields) : M Profile :=
  may_fail (fun w => db_fault w Profile_create);;
  w <- ask;;
  st <- get_store;;
  if existsb (fun p => String.eqb (p_uuid p) (uuid4 w)) (Profile_table st)
  then raise (Exn IntegrityError "UNIQUE constraint failed: profile.uuid")
  else
    let profile := {| p_id := next_pk (Profile_table st);
                      p_name := name fields;
                      p_age_limit := age_limit fields;
                      p_uuid := uuid4 w |} in
    put_store {| Profile_table := Profile_table st ++ [profile];
                 Movie_table := Movie_table st;
                 Video_table := Video_table st;
                 CustomUser_profiles := CustomUser_profiles st;
                 Movie_video := Movie_video st |};;
    emit (Inserted profile);;
    ret profile.

Definition pair_eqb (a b : N * N) : bool :=
  (fst a =? fst b) && (snd a =? snd b).

(** [user.profiles.add(profile)]: the join row, unless it is there. *)
Definition user_profiles_do_add (user : User) (profile : Profile) : M unit :=
  emit (AddCalled (user_pk user) (p_id profile));;
  may_fail (fun w => db_fault w user_profiles_add);;
  st <- get_store;;
  let row := (user_pk user, p_id profile) in
  if existsb (pair_eqb row) (CustomUser_profiles st) then ret tt
  else
    put_store {| Profile_table := Profile_table st;
                 Movie_table := Movie_table st;
                 Video_table := Video_table st;
                 CustomUser_profiles := CustomUser_profiles st ++ [row];
                 Movie_video := Movie_video st |}.

(** A model instance is always true in a condition. *)
Definition truthy (profile : Profile) : bool := true.

Inductive field_value : Type :=
| FInt (n : N)
| FStr (s : string).

(** One record of [queryset.values()] on [Video]: every stored field. *)
Definition Video_values (v : Video) : list (string * field_value) :=
  [("id", FInt (v_id v)); ("title", FStr (v_title v)); ("file", FStr (v_file v))].

(** [list(movie.video.values())] *)
Definition movie_video_values_list (movie : Movie)
    : M (list (list (string * field_value))) :=
  may_fail (fun w => db_fault w movie_video_values);;
  w <- ask;;
  st <- get_store;;
  ret (map Video_values
         (related v_id (db_order w movie_video_values)
            (Movie_video st) (m_id movie) (Video_table st))).

(** *** django.forms *)

Definition QueryDict : Type := list (string * string).

Definition ErrorDict : Type := list (string * string).  (* field, message *)

(** A form once [is_valid()] has cleaned it.  An unbound form (built from
    [None]) has no errors and no cleaned data. *)
Record Form : Type := {
  is_bound : bool;
  errors : ErrorDict;
  cleaned_data : option ProfileFields
}.

(** [form.is_valid()]: bound and without errors. *)
Definition is_valid (form : Form) : bool :=
  is_bound form && match errors form with [] => true | _ :: _ => false end.

(** [form.add_error(None, message)]: a form-level error. *)
Definition add_error (form : Form) (message : string) : Form :=
  {| is_bound := is_bound form;
     errors := (errors form ++ [("__all__", message)])%list;
     cleaned_data := cleaned_data form |}.

(** *** django.shortcuts and django.http *)

Inductive ctx_value : Type :=
| CStr (s : string)
| CJson (j : json)
| CForm (f : Form)
| CMovie (m : Movie)
| CProfiles (l : list Profile)
| CRecords (l : list (list (string * field_value))).

Inductive HttpResponse : Type :=
| TemplateResponse (template : string) (context : list (string * ctx_value))
| HttpResponseRedirect (to : string)
| LoginRedirect (next : string)
| JsonResponse (data : list (string * pyval)).

(** [render(request, template, context)] *)
Definition render (template : string) (context : list (string * ctx_value))
    : M HttpResponse :=
  may_fail (fun w => render_fault w template);;
  ret (TemplateResponse template context).

(** [redirect(name)], for a name the URL configuration knows. *)
Definition redirect (to : string) : M HttpResponse :=
  ret (HttpResponseRedirect to).

Record HttpRequest : Type := {
  user : User;
  POST : QueryDict;
  path : string
}.

(** [login_required]: an anonymous request never reaches the view. *)
Definition login_required (view : HttpRequest -> M HttpResponse)
    (request : HttpRequest) : M HttpResponse :=
  if is_authenticated (user request) then view request
  else ret (LoginRedirect (path request)).

(** ** The views ([views.py]) *)

Definition Home_get (request : HttpRequest) : M HttpResponse :=
  if is_authenticated (user request) then redirect "netflixapp:profile-list"
  else render "index.html" [].

Definition ProfileList_get (request : HttpRequest) : M HttpResponse :=
  profiles <- user_profiles (user request);;
  render "profilelist.html" [("profiles", CProfiles profiles)].

Section ProfileCreate.

(** The field validation of [ProfileForm], whose class is declared in
    [forms.py]: from the submitted data, the errors and the cleaned
    fields. *)
Variable ProfileForm_clean : QueryDict -> ErrorDict * ProfileFields.

(** [ProfileForm(data)], cleaned. *)
Definition ProfileForm (data : option QueryDict) : Form :=
  match data with
  | None => {| is_bound := false; errors := []; cleaned_data := None |}
  | Some d =>
      {| is_bound := true;
         errors := fst (ProfileForm_clean d);
         cleaned_data := Some (snd (ProfileForm_clean d)) |}
  end.

(** [request.POST or None]: an empty QueryDict is false. *)
Definition POST_or_None (request : HttpRequest) : option QueryDict :=
  match POST request with
  | [] => None
  | _ :: _ => Some (POST request)
  end.

Definition ProfileCreate_get (request : HttpRequest) : M HttpResponse :=
  render "profilecreate.html" [("form", CForm (ProfileForm None))].

(** The [try] statement of [post]: it either returns a response or falls
    through with the form. *)
Definition ProfileCreate_post_try (request : HttpRequest) (form : Form)
    : M (HttpResponse + Form) :=
  try_except
    (fields <- match cleaned_data form with
               | Some fields => ret fields
               | None =>
                   raise (Exn AttributeError
                            "'ProfileForm' object has no attribute 'cleaned_data'")
               end;;
     profile <- Profile_objects_create fields;;
     if truthy profile then
       user_profiles_do_add (user request) profile;;
       response <- redirect "netflixapp:profile-list";;
       ret (inl response)
     else ret (inr form))
    [Except Exception (fun e =>
       logger_error ("Error creating profile: " ++ exn_str e);;
       ret (inr (add_error form
                   "An error occurred while creating the profile.")))].

Definition ProfileCreate_post (request : HttpRequest) : M HttpResponse :=
  let form := ProfileForm (POST_or_None request) in
  r <- (if is_valid form then ProfileCreate_post_try request form
        else ret (inr form));;
  match r with
  | inl response => ret response
  | inr form' => render "profilecreate.html" [("form", CForm form')]
  end.

End ProfileCreate.

(** The body of the outer [try] of [MovieList.get]. *)
Definition MovieList_get_try (request : HttpRequest) (profile_id : uuid)
    : M HttpResponse :=
  profile <- Profile_objects_get profile_id;;
  profiles <- user_profiles (user request);;
  if negb (Profile_in profile profiles)
  then redirect "netflixapp:profile-list"
  else
    api_key <- settings_attr "OMDB_API_KEY";;
    let url := "http://www.omdbapi.com/?s=movie&apikey=" ++ py_str api_key in
    try_except
      (response <- requests_get url 10;;
       raise_for_status response;;
       data <- Response_json response;;
       movies <- data_get data "Search" (JArr []);;
       render "movielist.html"
         [("movies", CJson movies); ("profile_id", CStr profile_id)])
      [Except RequestException (fun e =>
         logger_error ("OMDB API error: " ++ exn_str e);;
         render "movielist.html"
           [("error", CStr "Unable to fetch movies at this time.");
            ("profile_id", CStr profile_id)])].

Definition MovieList_get (request : HttpRequest) (profile_id : uuid)
    : M HttpResponse :=
  try_except (MovieList_get_try request profile_id)
    [Except Profile_DoesNotExist (fun _ =>
       logger_warning
         ("Attempted to access non-existent profile: " ++ profile_id);;
       redirect "netflixapp:profile-list");
     Except Exception (fun e =>
       logger_error ("Unexpected error in MovieList view: " ++ exn_str e);;
       redirect "netflixapp:profile-list")].

Definition MovieDetail_get_try (request : HttpRequest) (movie_id : uuid)
    : M HttpResponse :=
  movie <- Movie_objects_get movie_id;;
  render "moviedetail.html" [("movie", CMovie movie)].

Definition MovieDetail_get (request : HttpRequest) (movie_id : uuid)
    : M HttpResponse :=
  try_except (MovieDetail_get_try request movie_id)
    [Except Movie_DoesNotExist (fun _ =>
       logger_warning
         ("Attempted to access non-existent movie: " ++ movie_id);;
       redirect "netflixapp:profile-list");
     Except Exception (fun e =>
       logger_error ("Error in MovieDetail view: " ++ exn_str e);;
       redirect "netflixapp:profile-list")].

Definition PlayMovie_get_try (request : HttpRequest) (movie_id : uuid)
    : M HttpResponse :=
  movie <- Movie_objects_get movie_id;;
  movie <- movie_video_values_list movie;;
  render "playmovie.html" [("movie", CRecords movie)].

Definition PlayMovie_get (request : HttpRequest) (movie_id : uuid)
    : M HttpResponse :=
  try_except (PlayMovie_get_try request movie_id)
    [Except Movie_DoesNotExist (fun _ =>
       logger_warning
         ("Attempted to play non-existent movie: " ++ movie_id);;
       redirect "netflixapp:profile-list");
     Except Exception (fun e =>
       logger_error ("Error in PlayMovie view: " ++ exn_str e);;
       redirect "netflixapp:profile-list")].

(** [debug_settings] carries [csrf_exempt] and nothing else: it is not
    wrapped in [login_required]. *)
Definition debug_settings (request : HttpRequest) : M HttpResponse :=
  w <- ask;;
  let security_settings :=
    [("SECURE_SSL_REDIRECT", settings_getattr w "SECURE_SSL_REDIRECT");
     ("SESSION_COOKIE_SECURE", settings_getattr w "SESSION_COOKIE_SECURE");
     ("CSRF_COOKIE_SECURE", settings_getattr w "CSRF_COOKIE_SECURE");
     ("DEBUG", settings_getattr w "DEBUG")] in
  ret (JsonResponse security_settings).

(** The views as the URL configuration sees them: the class-based ones are
    decorated with [login_required] on [dispatch]. *)
Definition ProfileList_view : HttpRequest -> M HttpResponse :=
  login_required ProfileList_get.

Definition MovieList_view (profile_id : uuid) : HttpRequest -> M HttpResponse :=
  login_required (fun request => MovieList_get request profile_id).

Definition MovieDetail_view (movie_id : uuid) : HttpRequest -> M HttpResponse :=
  login_required (fun request => MovieDetail_get request movie_id).

Definition PlayMovie_view (movie_id : uuid) : HttpRequest -> M HttpResponse :=
  login_required (fun request => PlayMovie_get request movie_id).

Definition debug_settings_view : HttpRequest -> M HttpResponse :=
  debug_settings.

(** A view run on a store, with nothing recorded yet. *)
Definition run {A : Type} (m : M A) (w : World) (st : Store)
    : Outcome A * State :=
  m w {| store := st; trace := [] |}.

Definition response_of {A : Type} (r : Outcome A * State) : Outcome A := fst r.

Definition store_of {A : Type} (r : Outcome A * State) : Store :=
  store (snd r).

Definition trace_of {A : Type} (r : Outcome A * State) : list Event :=
  trace (snd r).

(** Modelled from the spec: the field validation of [ProfileForm]
    ([forms.py] is not among the sources).  Spec 4.3: form fields
    {name: string of at most 200 characters, age-category: enum {All, Kids}},
    validation of required fields and enum membership; the bound and the
    enum are those [models.py] declares for [Profile]. *)
Definition ProfileForm_clean (data : QueryDict) : ErrorDict * ProfileFields :=
  let name_errors :=
    match lookup "name" data with
    | None | Some "" => [("name", "This field is required.")]
    | Some s =>
        if Nat.leb (String.length s) 200 then []
        else [("name", "Ensure this value has at most 200 characters.")]
    end in
  let age_errors :=
    match lookup "age_limit" data with
    | None | Some "" => [("age_limit", "This field is required.")]
    | Some a =>
        if existsb (fun choice => String.eqb (fst choice) a) AGE_CHOICES
        then []
        else [("age_limit", "Select a valid choice.")]
    end in
  ((name_errors ++ age_errors)%list,
   {| name := match lookup "name" data with Some s => s | None => "" end;
      age_limit :=
        match lookup "age_limit" data with Some a => a | None => "" end |}).

(** ** A small installation to run the views on *)

Module Demo.

Definition kids_room : Profile :=
  {| p_id := 1; p_name := "Kids Room"; p_age_limit := "Kids";
     p_uuid := "11111111-1111-4111-8111-111111111111" |}.

Definition den : Profile :=
  {| p_id := 2; p_name := "Den"; p_age_limit := "All";
     p_uuid := "22222222-2222-4222-8222-222222222222" |}.

Definition part_one : Video :=
  {| v_id := 1; v_title := "Part one"; v_file := "movies/one.mp4" |}.

Definition part_two : Video :=
  {| v_id := 2; v_title := "Part two"; v_file := "movies/two.mp4" |}.

Definition trailer : Video :=
  {| v_id := 3; v_title := "Trailer"; v_file := "movies/trailer.mp4" |}.

Definition feature : Movie :=
  {| m_id := 1; m_title := "Feature"; m_description := None;
     m_created := "2024-01-01T00:00:00Z";
     m_uuid := "aaaaaaaa-aaaa-4aaa-8aaa-aaaaaaaaaaaa";
     m_type := "single"; m_image := "covers/feature.png";
     m_age_limit := "All" |}.

(** Account 1 owns "Kids Room", account 2 owns "Den"; the feature has
    two videos attached. *)
Definition db : Store :=
  {| Profile_table := [kids_room; den];
     Movie_table := [feature];
     Video_table := [part_one; trailer; part_two];
     CustomUser_profiles := [(1, 1); (2, 2)];
     Movie_video := [(1, 3); (1, 1)] |}.

Definition conf : list (string * pyval) :=
  [("OMDB_API_KEY", PStr "k3y");
   ("SECURE_SSL_REDIRECT", PBool true);
   ("SESSION_COOKIE_SECURE", PBool true);
   ("CSRF_COOKIE_SECURE", PBool false);
   ("DEBUG", PBool false)].

(** An installation where nothing fails except what [provider] says, and
    where the database answers in the order of the primary keys. *)
Definition world (provider : http_outcome) : World :=
  {| settings := conf;
     http := fun _ => provider;
     json_error_is_RequestException := true;
     db_fault := fun _ => None;
     db_order := fun _ pk => pk;
     render_fault := fun _ => None;
     uuid4 := "33333333-3333-4333-8333-333333333333" |}.

Definition ok_body : json :=
  JObj [("Search", JArr [JObj [("Title", JStr "Movie 43")]]);
        ("Response", JStr "True")].

Definition alice : HttpRequest :=
  {| user := {| user_pk := 1; is_authenticated := true |};
     POST := []; path := "/" |}.

Definition bob : HttpRequest :=
  {| user := {| user_pk := 2; is_authenticated := true |};
     POST := []; path := "/" |}.

Definition anonymous : HttpRequest :=
  {| user := {| user_pk := 0; is_authenticated := false |};
     POST := []; path := "/debug/settings" |}.

End Demo.

(** * Properties *)

Unset Implicit Arguments.

(** ** Exceptions and [try] *)

Lemma issubclass_Exception (c : exn_class) : issubclass c Exception = true.
Proof. destruct c; reflexivity. Qed.

Lemma isinstance_Exception (e : exn) : isinstance e Exception = true.
Proof. apply issubclass_Exception. Qed.

Example HTTPError_is_RequestException :
  issubclass HTTPError RequestException = true.
Proof. reflexivity. Qed.

Example RequestsJSONDecodeError_is_RequestException :
  issubclass RequestsJSONDecodeError RequestException = true.
Proof. reflexivity. Qed.

Example JSONDecodeError_is_not_RequestException :
  issubclass JSONDecodeError RequestException = false.
Proof. reflexivity. Qed.

Example AttributeError_is_not_RequestException :
  issubclass AttributeError RequestException = false.
Proof. reflexivity. Qed.

(** The happy path of the movie list on the small installation. *)
Example MovieList_renders_for_owner :
  run (MovieList_get Demo.alice (p_uuid Demo.kids_room))
      (Demo.world (Responded {| status_code := 200;
                                body_json := Some Demo.ok_body;
      body_error := NotJSON |}))
      Demo.db
  = (Returned
       (TemplateResponse "movielist.html"
          [("movies", CJson (JArr [JObj [("Title", JStr "Movie 43")]]));
           ("profile_id", CStr "11111111-1111-4111-8111-111111111111")]),
     {| store := Demo.db;
        trace := [HttpGet "http://www.omdbapi.com/?s=movie&apikey=k3y" 10] |}).
Proof. reflexivity. Qed.

Example MovieList_timeout :
  run (MovieList_get Demo.alice (p_uuid Demo.kids_room))
      (Demo.world (Failed TimedOut "Read timed out. (read timeout=10)"))
      Demo.db
  = (Returned
       (TemplateResponse "movielist.html"
          [("error", CStr "Unable to fetch movies at this time.");
           ("profile_id", CStr "11111111-1111-4111-8111-111111111111")]),
     {| store := Demo.db;
        trace := [HttpGet "http://www.omdbapi.com/?s=movie&apikey=k3y" 10;
                  Log ERROR "OMDB API error: Read timed out. (read timeout=10)"] |}).
Proof. reflexivity. Qed.

Example PlayMovie_feature :
  response_of (run (PlayMovie_get Demo.bob (m_uuid Demo.feature))
                   (Demo.world (Failed TimedOut "")) Demo.db)
  = Returned
      (TemplateResponse "playmovie.html"
         [("movie",
           CRecords [[("id", FInt 1); ("title", FStr "Part one");
                      ("file", FStr "movies/one.mp4")];
                     [("id", FInt 3); ("title", FStr "Trailer");
                      ("file", FStr "movies/trailer.mp4")]])]).
Proof. reflexivity. Qed.

(** ** The object mapper *)

Lemma filter_none {A : Type} (f : A -> bool) (l : list A) :
  (forall x, In x l -> f x = false) -> filter f l = [].
Proof.
  induction l as [|a l IH]; intros H; simpl; [reflexivity|].
  rewrite (H a (or_introl eq_refl)). apply IH.
  intros x Hx. apply H. right. exact Hx.
Qed.

(** A lookup leaves the state alone, and what it returns is a row of the
    table that matches, the only one. *)
Lemma objects_get_spec {A : Type} (op : db_op) (table : Store -> list A)
    (matches : A -> bool) (dne : exn) (w : World) (s : State) :
  match objects_get op table matches dne w s with
  | (Returned row, s') =>
      s' = s /\ db_fault w op = None /\
      filter matches (table (store s)) = [row]
  | (Raised e, s') =>
      s' = s /\
      (db_fault w op = Some e \/
       db_fault w op = None /\
       (filter matches (table (store s)) = [] /\ e = dne \/
        exn_cls e = MultipleObjectsReturned))
  end.
Proof.
  unfold objects_get, bind, may_fail, get_store, raise, ret.
  destruct (db_fault w op) as [e|]; [auto|].
  destruct (filter matches (table (store s))) as [|x [|y l]]; simpl; auto 6.
Qed.

Lemma objects_get_missing {A : Type} (op : db_op) (table : Store -> list A)
    (matches : A -> bool) (dne : exn) (w : World) (s : State) :
  db_fault w op = None ->
  (forall x, In x (table (store s)) -> matches x = false) ->
  objects_get op table matches dne w s = (Raised dne, s).
Proof.
  intros Hf Hm. unfold objects_get, bind, may_fail, get_store, raise.
  rewrite Hf, (filter_none _ _ Hm). reflexivity.
Qed.

Lemma eqb_false_of_neq (a b : string) : a <> b -> String.eqb a b = false.
Proof. intros H. apply String.eqb_neq. exact H. Qed.

Definition to_profile_list : HttpResponse :=
  HttpResponseRedirect "netflixapp:profile-list".

(** C4.  A profile UUID no Profile row carries sends Movie List to the
    profile listing, and a title UUID no Movie row carries sends Title Detail
    and Playback there; each time the log receives one record, a warning,
    nothing is rendered and the store is as it was.  (The lookup itself is
    taken to answer.) *)
Theorem nonexistent_uuid_redirects_with_one_warning
    (w : World) (st : Store) (request : HttpRequest) (id : uuid) :
  (db_fault w Profile_get = None ->
   (forall p, In p (Profile_table st) -> p_uuid p <> id) ->
   run (MovieList_get request id) w st
   = (Returned to_profile_list,
      {| store := st;
         trace := [Log WARNING
                     ("Attempted to access non-existent profile: " ++ id)] |}))
  /\
  (db_fault w Movie_get = None ->
   (forall m, In m (Movie_table st) -> m_uuid m <> id) ->
   run (MovieDetail_get request id) w st
   = (Returned to_profile_list,
      {| store := st;
         trace := [Log WARNING
                     ("Attempted to access non-existent movie: " ++ id)] |})
   /\
   run (PlayMovie_get request id) w st
   = (Returned to_profile_list,
      {| store := st;
         trace := [Log WARNING
                     ("Attempted to play non-existent movie: " ++ id)] |})).
Proof.
  split.
  - intros Hf Hnone.
    unfold run, MovieList_get, try_except, MovieList_get_try, bind at 1.
    unfold Profile_objects_get.
    rewrite objects_get_missing;
      [reflexivity | exact Hf
       | intros p Hp; apply eqb_false_of_neq, Hnone, Hp].
  - intros Hf Hnone.
    assert (Hget : forall s, store s = st ->
              Movie_objects_get id w s
              = (Raised (Exn Movie_DoesNotExist
                           "Movie matching query does not exist."), s)).
    { intros s Hs. unfold Movie_objects_get.
      apply objects_get_missing; [exact Hf|].
      rewrite Hs. intros m Hm. apply eqb_false_of_neq, Hnone, Hm. }
    split.
    + unfold run, MovieDetail_get, try_except, MovieDetail_get_try, bind at 1.
      rewrite Hget; reflexivity.
    + unfold run, PlayMovie_get, try_except, PlayMovie_get_try, bind at 1.
      rewrite Hget; reflexivity.
Qed.

Lemma nonexistent_uuid_witness :
  run (MovieList_get Demo.alice "99999999-9999-4999-8999-999999999999")
      (Demo.world (Failed TimedOut "")) Demo.db
  = (Returned to_profile_list,
     {| store := Demo.db;
        trace := [Log WARNING
                    "Attempted to access non-existent profile: 99999999-9999-4999-8999-999999999999"] |})
  /\
  run (PlayMovie_get Demo.alice "99999999-9999-4999-8999-999999999999")
      (Demo.world (Failed TimedOut "")) Demo.db
  = (Returned to_profile_list,
     {| store := Demo.db;
        trace := [Log WARNING
                    "Attempted to play non-existent movie: 99999999-9999-4999-8999-999999999999"] |}).
Proof.
  pose proof (nonexistent_uuid_redirects_with_one_warning
                (Demo.world (Failed TimedOut "")) Demo.db Demo.alice
                "99999999-9999-4999-8999-999999999999") as [HP HM].
  split.
  - apply HP; [reflexivity|].
    intros p Hp; simpl in Hp.
    destruct Hp as [<-|[<-|[]]]; discriminate.
  - apply HM; [reflexivity|].
    intros m Hm; simpl in Hm.
    destruct Hm as [<-|[]]; discriminate.
Defined.

(** ** Running a view by cases *)

Definition is_HttpGet (ev : Event) : bool :=
  match ev with HttpGet _ _ => true | _ => false end.

Ltac unfold_views :=
  cbv beta iota delta
    [run response_of trace_of store_of
     MovieList_get MovieList_get_try MovieDetail_get MovieDetail_get_try
     PlayMovie_get PlayMovie_get_try debug_settings
     Profile_objects_get Movie_objects_get objects_get user_profiles
     movie_video_values_list settings_attr requests_get raise_for_status
     Response_json data_get render redirect logger_warning logger_error
     try_except find_clause catches handler transport_exn
     bind ret raise ask get_store put_store emit may_fail].

(** Split on the innermost undecided test. *)
Ltac case_step :=
  match goal with
  | |- context [match ?x with _ => _ end] =>
      lazymatch x with
      | context [match _ with _ => _ end] => fail
      | _ => destruct x eqn:?
      end
  end.

Ltac crunch :=
  repeat (simpl; rewrite ?isinstance_Exception; try case_step).

(** ** Ownership *)

Lemma joined_In {A : Type} (pk : A -> N) (rel : list (N * N)) (key : N)
    (table : list A) (r : A) :
  In r (joined pk rel key table) -> In r table /\ In (key, pk r) rel.
Proof.
  unfold joined. rewrite in_flat_map. intros [[k v] [Hrow Hin]]. simpl in Hin.
  destruct (k =? key) eqn:Hk; [|contradiction].
  apply filter_In in Hin. destruct Hin as [Ht Hv].
  apply N.eqb_eq in Hk, Hv. subst. auto.
Qed.

Lemma insert_by_perm {A : Type} (rank : A -> N) (x : A) (l : list A) :
  Permutation (insert_by rank x l) (x :: l).
Proof.
  induction l as [|y l IH]; simpl.
  - apply Permutation_refl.
  - destruct (rank x <=? rank y).
    + apply Permutation_refl.
    + apply perm_trans with (y :: x :: l).
      * apply perm_skip. exact IH.
      * apply perm_swap.
Qed.

(** The database reorders an answer, it does not change what is in it. *)
Lemma sort_by_perm {A : Type} (rank : A -> N) (l : list A) :
  Permutation (sort_by rank l) l.
Proof.
  induction l as [|x l IH]; simpl.
  - apply perm_nil.
  - apply perm_trans with (x :: sort_by rank l).
    + apply insert_by_perm.
    + apply perm_skip. exact IH.
Qed.

Lemma In_sort_by {A : Type} (rank : A -> N) (l : list A) (x : A) :
  In x (sort_by rank l) <-> In x l.
Proof.
  split; apply Permutation_in;
    [|apply Permutation_sym]; apply sort_by_perm.
Qed.

Lemma insert_by_sorted {A : Type} (rank : A -> N) (x : A) (l : list A) :
  Sorted (fun a b => rank a <= rank b) l ->
  Sorted (fun a b => rank a <= rank b) (insert_by rank x l).
Proof.
  induction l as [|y l IH]; simpl; intros Hs.
  - constructor; constructor.
  - destruct (N.leb_spec (rank x) (rank y)) as [Hle|Hlt].
    + constructor; [exact Hs|]. constructor. exact Hle.
    + inversion Hs as [|? ? Hs' Hhd]; subst.
      constructor; [apply IH; exact Hs'|].
      destruct l as [|z l]; simpl.
      * constructor. lia.
      * destruct (rank x <=? rank z); constructor; [lia|].
        inversion Hhd; subst. assumption.
Qed.

Lemma sort_by_sorted {A : Type} (rank : A -> N) (l : list A) :
  Sorted (fun a b => rank a <= rank b) (sort_by rank l).
Proof.
  induction l as [|x l IH]; simpl.
  - constructor.
  - apply insert_by_sorted. exact IH.
Qed.

Lemma related_In {A : Type} (pk : A -> N) (rank : N -> N)
    (rel : list (N * N)) (key : N) (table : list A) (r : A) :
  In r (related pk rank rel key table) ->
  In r table /\ In (key, pk r) rel.
Proof.
  unfold related. intros Hin. apply In_sort_by in Hin.
  apply joined_In in Hin. exact Hin.
Qed.

Lemma not_owned_not_in {rank : N -> N} (st : Store) (u : User)
    (p : Profile) :
  ~ In (user_pk u, p_id p) (CustomUser_profiles st) ->
  Profile_in p (related p_id rank (CustomUser_profiles st) (user_pk u)
                  (Profile_table st)) = false.
Proof.
  intros Hno. unfold Profile_in.
  destruct (existsb _ _) eqn:E; [exfalso|reflexivity].
  apply existsb_exists in E. destruct E as [q [Hq Heq]].
  apply related_In in Hq. apply N.eqb_eq in Heq.
  rewrite Heq in Hq. tauto.
Qed.

(** C2.  When the requested UUID is that of a stored Profile which the
    requesting account does not own (no join row links them), Movie List
    answers with the redirect to the profile listing and its trace holds no
    outbound request. *)
Theorem foreign_profile_redirects_without_request
    (w : World) (st : Store) (request : HttpRequest) (id : uuid) (p : Profile) :
  In p (Profile_table st) ->
  p_uuid p = id ->
  ~ In (user_pk (user request), p_id p) (CustomUser_profiles st) ->
  response_of (run (MovieList_get request id) w st) = Returned to_profile_list
  /\ filter is_HttpGet (trace_of (run (MovieList_get request id) w st)) = [].
Proof.
  intros Hin Hid Hno.
  assert (Hp : In p (filter (fun q => String.eqb (p_uuid q) id)
                        (Profile_table st))).
  { apply filter_In. split; [exact Hin|]. apply String.eqb_eq. exact Hid. }
  unfold_views.
  destruct (db_fault w Profile_get) eqn:Hf; [solve [crunch; auto]|].
  simpl. revert Hp.
  destruct (filter _ (Profile_table st)) as [|row [|row' rest]]; intros Hp.
  - destruct Hp.
  - destruct Hp as [<-|[]].
    destruct (db_fault w user_profiles_all) eqn:Hall; [solve [crunch; auto]|].
    cbn [store trace].
    rewrite (not_owned_not_in st (user request) row Hno). simpl. auto.
  - solve [crunch; auto].
Qed.

(** Account 2 asks for the movies of account 1's profile. *)
Lemma foreign_profile_witness :
  response_of (run (MovieList_get Demo.bob (p_uuid Demo.kids_room))
                 (Demo.world (Responded {| status_code := 200;
                                           body_json := Some Demo.ok_body;
      body_error := NotJSON |}))
                 Demo.db)
  = Returned to_profile_list
  /\ filter is_HttpGet
       (trace_of (run (MovieList_get Demo.bob (p_uuid Demo.kids_room))
                    (Demo.world (Responded {| status_code := 200;
                                              body_json := Some Demo.ok_body;
      body_error := NotJSON |}))
                    Demo.db))
     = [].
Proof.
  apply (foreign_profile_redirects_without_request
           (Demo.world (Responded {| status_code := 200;
                                     body_json := Some Demo.ok_body;
      body_error := NotJSON |}))
           Demo.db Demo.bob (p_uuid Demo.kids_room) Demo.kids_room).
  - simpl. auto.
  - reflexivity.
  - simpl. intros [H|[H|[]]]; discriminate.
Defined.

(** ** Outbound requests *)

Definition omdb_url (api_key : string) : string :=
  "http://www.omdbapi.com/?s=movie&apikey=" ++ api_key.

(** C8.  One run of Movie List issues at most one outbound request.  When it
    issues one, it is the first thing the run records, it goes to the
    provider's search URL with the 10 second timeout, and only log records
    follow it: a failed attempt is not repeated. *)
Theorem at_most_one_outbound_request
    (w : World) (st : Store) (request : HttpRequest) (id : uuid) :
  (List.length
     (filter is_HttpGet (trace_of (run (MovieList_get request id) w st)))
   <= 1)%nat
  /\
  (filter is_HttpGet (trace_of (run (MovieList_get request id) w st)) = []
   \/
   exists key logs,
     trace_of (run (MovieList_get request id) w st)
     = HttpGet (omdb_url key) 10 :: logs
     /\ filter is_HttpGet logs = []).
Proof.
  unfold omdb_url. unfold_views. crunch;
    (split; [simpl; lia|]);
    solve [ left; reflexivity
          | right; eexists; eexists; split; reflexivity ].
Qed.

(** ** Failures of the outbound call *)

(** What the inner handler of Movie List catches, read off the three calls
    of its [try]: [requests.get] failing, [raise_for_status] on a 4xx or 5xx
    status, and [response.json()] on a body that is not JSON where the
    installed [requests] raises its own [JSONDecodeError].  The other
    failures of decoding (too deep a nesting, too long an integer) are not
    among them. *)
Definition fails_as_RequestException (w : World) (o : http_outcome) : bool :=
  match o with
  | Failed _ _ => true
  | Responded r =>
      ((400 <=? status_code r) && (status_code r <? 600)) ||
      match body_json r with
      | None =>
          match body_error r with
          | NotJSON => json_error_is_RequestException w
          | _ => false
          end
      | Some _ => false
      end
  end.

(** The failures the adapter's contract names: no response (transport error,
    timeout), a status outside 2xx, a body that is not the JSON object the
    provider promises. *)
Definition outbound_call_failed (o : http_outcome) : bool :=
  match o with
  | Failed _ _ => true
  | Responded r =>
      negb ((200 <=? status_code r) && (status_code r <? 300)) ||
      match body_json r with
      | Some (JObj _) => false
      | _ => true
      end
  end.

Ltac use_equations :=
  repeat match goal with
         | H : ?x = _, H' : context [?x] |- _ => rewrite H in H'
         end.

(** C1, as amended.  Whenever Movie List has issued its request and the
    call fails the way [requests] reports as a [RequestException] (no
    response, a 4xx or 5xx status, a body that is not JSON where
    requests >= 2.27 translates the decoder's error), the failure stays
    inside the view: it is logged once
    at error level and the movie-list page is rendered with the generic
    message and the requested profile UUID; there is no redirect and no
    second request.  (The template is taken to render.) *)
Theorem request_failure_renders_error_page
    (w : World) (st : Store) (request : HttpRequest) (id : uuid)
    (url : string) (timeout : N) :
  In (HttpGet url timeout) (trace_of (run (MovieList_get request id) w st)) ->
  fails_as_RequestException w (http w url) = true ->
  render_fault w "movielist.html" = None ->
  exists msg,
    run (MovieList_get request id) w st
    = (Returned
         (TemplateResponse "movielist.html"
            [("error", CStr "Unable to fetch movies at this time.");
             ("profile_id", CStr id)]),
       {| store := st;
          trace := [HttpGet url 10; Log ERROR ("OMDB API error: " ++ msg)] |}).
Proof.
  intros Hin Hfail Hrender. revert Hin.
  unfold_views.
  crunch; intros Hin;
    repeat match goal with
           | H : _ \/ _ |- _ => destruct H
           | H : False |- _ => destruct H
           | H : HttpGet _ _ = HttpGet _ _ |- _ => inversion H; subst; clear H
           end;
    try discriminate; try congruence.
  all: try (eexists; reflexivity).
  all: unfold fails_as_RequestException in Hfail.
  all: use_equations.
  all: destruct (N.leb_spec 400 (status_code r)),
                (N.ltb_spec (status_code r) 500),
                (N.leb_spec 500 (status_code r)),
                (N.ltb_spec (status_code r) 600);
         simpl in *; try discriminate; lia.
Qed.

Module Provider.

Definition unavailable : http_outcome :=
  Responded {| status_code := 503; body_json := None;
      body_error := NotJSON |}.

Definition multiple_choices : http_outcome :=
  Responded {| status_code := 300; body_json := Some Demo.ok_body;
               body_error := NotJSON |}.

Definition array_body : http_outcome :=
  Responded {| status_code := 200; body_json := Some (JArr []);
      body_error := NotJSON |}.

End Provider.

(** The provider answers 503 to the owner of the profile. *)
Lemma request_failure_witness :
  exists msg,
    run (MovieList_get Demo.alice (p_uuid Demo.kids_room))
        (Demo.world Provider.unavailable) Demo.db
    = (Returned
         (TemplateResponse "movielist.html"
            [("error", CStr "Unable to fetch movies at this time.");
             ("profile_id", CStr (p_uuid Demo.kids_room))]),
       {| store := Demo.db;
          trace := [HttpGet (omdb_url "k3y") 10;
                    Log ERROR ("OMDB API error: " ++ msg)] |}).
Proof.
  apply (request_failure_renders_error_page
           (Demo.world Provider.unavailable) Demo.db Demo.alice
           (p_uuid Demo.kids_room) (omdb_url "k3y") 10).
  - vm_compute. left. reflexivity.
  - reflexivity.
  - reflexivity.
Defined.

(** C1, as stated, fails.  A 300 answer without a Location header (a
    status outside 2xx that requests neither follows nor raises on) that
    carries a usable body is rendered as an ordinary movie list, without the
    error message; a 200 answer whose body is a JSON array (not the promised
    object) leaves the inner handler and ends in the catch-all: an error
    record and the redirect to the profile listing. *)
Lemma outbound_failure_counterexample :
  (outbound_call_failed Provider.multiple_choices = true
   /\ run (MovieList_get Demo.alice (p_uuid Demo.kids_room))
          (Demo.world Provider.multiple_choices) Demo.db
      = (Returned
           (TemplateResponse "movielist.html"
              [("movies", CJson (JArr [JObj [("Title", JStr "Movie 43")]]));
               ("profile_id", CStr (p_uuid Demo.kids_room))]),
         {| store := Demo.db; trace := [HttpGet (omdb_url "k3y") 10] |}))
  /\
  (outbound_call_failed Provider.array_body = true
   /\ run (MovieList_get Demo.alice (p_uuid Demo.kids_room))
          (Demo.world Provider.array_body) Demo.db
      = (Returned to_profile_list,
         {| store := Demo.db;
            trace := [HttpGet (omdb_url "k3y") 10;
                      Log ERROR
                        "Unexpected error in MovieList view: 'list' object has no attribute 'get'"] |})).
Proof. repeat split; reflexivity. Qed.

(** A body nested deeper than the interpreter recurses is not a
    [RequestException] either: it ends in the catch-all. *)
Example MovieList_too_deep_body :
  run (MovieList_get Demo.alice (p_uuid Demo.kids_room))
      (Demo.world (Responded {| status_code := 200; body_json := None;
                                body_error := TooDeep |}))
      Demo.db
  = (Returned to_profile_list,
     {| store := Demo.db;
        trace := [HttpGet (omdb_url "k3y") 10;
                  Log ERROR
                    "Unexpected error in MovieList view: maximum recursion depth exceeded"] |}).
Proof. reflexivity. Qed.

(** ** Nothing escapes the catalog views *)

Definition page_or_redirect (r : Outcome HttpResponse) : bool :=
  match r with
  | Returned (TemplateResponse _ _) => true
  | Returned (HttpResponseRedirect _) => true
  | _ => false
  end.

(** What the two handlers of a catalog view make of the outcome of its
    [try] body: a response passes; the model's [DoesNotExist] becomes a
    warning and anything else an error record, and both redirect. *)
Definition settle (DoesNotExist : exn_class) (warning error_prefix : string)
    (r : Outcome HttpResponse * State) : Outcome HttpResponse * State :=
  match r with
  | (Returned response, s) => (Returned response, s)
  | (Raised e, s) =>
      (Returned to_profile_list,
       {| store := store s;
          trace := trace s ++
                   [if isinstance e DoesNotExist then Log WARNING warning
                    else Log ERROR (error_prefix ++ exn_str e)] |})
  end.

Lemma try_except_settle (body : M HttpResponse) (DoesNotExist : exn_class)
    (warning error_prefix : string) (w : World) (s : State) :
  try_except body
    [Except DoesNotExist (fun _ =>
       logger_warning warning;; redirect "netflixapp:profile-list");
     Except Exception (fun e =>
       logger_error (error_prefix ++ exn_str e);;
       redirect "netflixapp:profile-list")] w s
  = settle DoesNotExist warning error_prefix (body w s).
Proof.
  unfold try_except, settle. destruct (body w s) as [[response|e] s'].
  - reflexivity.
  - simpl. rewrite isinstance_Exception.
    destruct (isinstance e DoesNotExist); reflexivity.
Qed.

Lemma MovieList_get_resolves (w : World) (st : Store) (request : HttpRequest)
    (id : uuid) :
  page_or_redirect (response_of (run (MovieList_get request id) w st)) = true.
Proof. unfold_views. crunch; reflexivity. Qed.

Lemma MovieDetail_get_resolves (w : World) (st : Store)
    (request : HttpRequest) (id : uuid) :
  page_or_redirect (response_of (run (MovieDetail_get request id) w st)) = true.
Proof. unfold_views. crunch; reflexivity. Qed.

Lemma PlayMovie_get_resolves (w : World) (st : Store) (request : HttpRequest)
    (id : uuid) :
  page_or_redirect (response_of (run (PlayMovie_get request id) w st)) = true.
Proof. unfold_views. crunch; reflexivity. Qed.

(** C5.  Whatever the database, the provider, the configuration and the
    templates do, Movie List, Title Detail and Playback return a response,
    and it is a rendered page or a redirect: no exception leaves the view.
    An exception of the body of the view's [try] ends in the redirect to
    the profile listing, after one more log record: a warning when it is
    the model's [DoesNotExist], an error record for anything else. *)
Theorem catalog_views_never_raise
    (w : World) (st : Store) (request : HttpRequest) (id : uuid) :
  (page_or_redirect (response_of (run (MovieList_get request id) w st)) = true
   /\ page_or_redirect (response_of (run (MovieDetail_get request id) w st))
      = true
   /\ page_or_redirect (response_of (run (PlayMovie_get request id) w st))
      = true)
  /\
  (run (MovieList_get request id) w st
   = settle Profile_DoesNotExist
       ("Attempted to access non-existent profile: " ++ id)
       "Unexpected error in MovieList view: "
       (run (MovieList_get_try request id) w st)
   /\
   run (MovieDetail_get request id) w st
   = settle Movie_DoesNotExist
       ("Attempted to access non-existent movie: " ++ id)
       "Error in MovieDetail view: "
       (run (MovieDetail_get_try request id) w st)
   /\
   run (PlayMovie_get request id) w st
   = settle Movie_DoesNotExist
       ("Attempted to play non-existent movie: " ++ id)
       "Error in PlayMovie view: "
       (run (PlayMovie_get_try request id) w st)).
Proof.
  split; [split; [|split]|split; [|split]].
  - apply MovieList_get_resolves.
  - apply MovieDetail_get_resolves.
  - apply PlayMovie_get_resolves.
  - apply try_except_settle.
  - apply try_except_settle.
  - apply try_except_settle.
Qed.

(** An unexpected failure at work: the template of the detail page is
    missing. *)
Example MovieDetail_template_missing :
  run (MovieDetail_get Demo.alice (m_uuid Demo.feature))
      {| settings := Demo.conf;
         http := fun _ => Provider.unavailable;
         json_error_is_RequestException := true;
         db_fault := fun _ => None;
         db_order := fun _ pk => pk;
         render_fault := fun t =>
           if String.eqb t "moviedetail.html"
           then Some (Exn TemplateDoesNotExist "moviedetail.html")
           else None;
         uuid4 := "" |}
      Demo.db
  = (Returned to_profile_list,
     {| store := Demo.db;
        trace := [Log ERROR "Error in MovieDetail view: moviedetail.html"] |}).
Proof. reflexivity. Qed.

(** ** Playback *)

(** The join rows that attach a video to [movie]. *)
Definition attached_rows (st : Store) (movie : Movie) : list (N * N) :=
  filter (fun row => fst row =? m_id movie) (Movie_video st).

(** What the database guarantees of the catalog: the unique constraint on
    [Movie.uuid], primary keys of [Video], and the foreign key of the join
    table. *)
Record catalog_integrity (st : Store) : Prop := {
  movie_uuid_unique : NoDup (map m_uuid (Movie_table st));
  video_pk_unique : NoDup (map v_id (Video_table st));
  video_fk : forall row,
      In row (Movie_video st) -> In (snd row) (map v_id (Video_table st))
}.

Section UniqueKey.

Context {A K : Type} (key : A -> K) (eqb : K -> K -> bool).
Hypothesis eqb_eq : forall a b, eqb a b = true <-> a = b.

Lemma filter_key_absent (l : list A) (k : K) :
  ~ In k (map key l) -> filter (fun y => eqb (key y) k) l = [].
Proof.
  intros Hk. apply filter_none. intros x Hx.
  destruct (eqb (key x) k) eqn:E; [|reflexivity].
  exfalso. apply Hk. apply eqb_eq in E. subst k. apply in_map. exact Hx.
Qed.

(** With unique keys, a key that occurs selects exactly one row. *)
Lemma filter_key_unique (l : list A) (k : K) :
  NoDup (map key l) -> In k (map key l) ->
  exists x, filter (fun y => eqb (key y) k) l = [x] /\ key x = k /\ In x l.
Proof.
  induction l as [|a l IH]; simpl; intros Hnd Hin; [contradiction|].
  inversion Hnd as [|? ? Hnotin Hnd']; subst.
  destruct (eqb (key a) k) eqn:E.
  - apply eqb_eq in E. subst k. exists a.
    rewrite (filter_key_absent l (key a) Hnotin). auto.
  - destruct Hin as [Heq|Hin].
    + apply eqb_eq in Heq. congruence.
    + destruct (IH Hnd' Hin) as [x [Hf [Hk Hx]]]. exists x. auto.
Qed.

End UniqueKey.

Lemma joined_Forall2 {A : Type} (pk : A -> N) (rel : list (N * N)) (key : N)
    (table : list A) :
  (forall row, In row rel ->
     exists x, filter (fun y => pk y =? snd row) table = [x]
               /\ pk x = snd row /\ In x table) ->
  Forall2 (fun row x => In x table /\ pk x = snd row)
          (filter (fun row => fst row =? key) rel)
          (joined pk rel key table).
Proof.
  unfold joined. induction rel as [|row rel IH]; intros H; simpl.
  - constructor.
  - assert (IH' := IH (fun r Hr => H r (or_intror Hr))).
    destruct (fst row =? key); [|exact IH'].
    destruct (H row (or_introl eq_refl)) as [x [Hf [Hk Hx]]].
    rewrite Hf. simpl. constructor; auto.
Qed.

Lemma Forall2_keys {A : Type} (pk : A -> N) (P : A -> Prop)
    (rows : list (N * N)) (l : list A) :
  Forall2 (fun row x => P x /\ pk x = snd row) rows l ->
  map pk l = map snd rows.
Proof.
  induction 1 as [|row x rows l [_ Hk] _ IH]; simpl; [reflexivity|].
  rewrite Hk, IH. reflexivity.
Qed.

(** C6.  For a Title that exists, Playback renders a collection with one
    record per attached Video, so as many records as Videos are attached
    (two for a Title with two): the records are those of the Videos the
    join rows of the Title name, each record holding the Video's stored
    [id], [title] and [file], and they come in the order in which the
    database answers the query.  (The database keeps its constraints and
    answers; the template renders.) *)
Theorem playback_returns_attached_videos
    (w : World) (st : Store) (request : HttpRequest) (id : uuid)
    (movie : Movie) :
  catalog_integrity st ->
  In movie (Movie_table st) ->
  m_uuid movie = id ->
  db_fault w Movie_get = None ->
  db_fault w movie_video_values = None ->
  render_fault w "playmovie.html" = None ->
  exists videos,
    run (PlayMovie_get request id) w st
    = (Returned
         (TemplateResponse "playmovie.html"
            [("movie",
              CRecords
                (map (fun v => [("id", FInt (v_id v));
                                ("title", FStr (v_title v));
                                ("file", FStr (v_file v))])
                     videos))]),
       {| store := st; trace := [] |})
    /\ List.length videos = List.length (attached_rows st movie)
    /\ Permutation (map v_id videos) (map snd (attached_rows st movie))
    /\ (forall v, In v videos -> In v (Video_table st))
    /\ Sorted (fun a b => db_order w movie_video_values (v_id a)
                          <= db_order w movie_video_values (v_id b))
         videos.
Proof.
  intros [Huuid Hpk Hfk] Hin Hid Hget Hvalues Hrender.
  destruct (filter_key_unique m_uuid String.eqb String.eqb_eq
              (Movie_table st) id Huuid) as [m [Hfilter [Hm Hm_in]]].
  { rewrite <- Hid. apply in_map. exact Hin. }
  assert (m = movie) as ->.
  { assert (Hmv : In movie (filter (fun y => String.eqb (m_uuid y) id)
                              (Movie_table st))).
    { apply filter_In. split; [exact Hin|]. apply String.eqb_eq. exact Hid. }
    rewrite Hfilter in Hmv. destruct Hmv as [->|[]]. reflexivity. }
  exists (related v_id (db_order w movie_video_values) (Movie_video st)
            (m_id movie) (Video_table st)).
  assert (HF : Forall2 (fun row v => In v (Video_table st) /\ v_id v = snd row)
                 (attached_rows st movie)
                 (joined v_id (Movie_video st) (m_id movie) (Video_table st))).
  { apply joined_Forall2. intros row Hrow.
    apply (filter_key_unique v_id N.eqb N.eqb_eq _ _ Hpk (Hfk row Hrow)). }
  pose proof (sort_by_perm
                (fun v => db_order w movie_video_values (v_id v))
                (joined v_id (Movie_video st) (m_id movie) (Video_table st)))
    as Hperm.
  split; [|split; [|split; [|split]]].
  - unfold_views. rewrite Hget. simpl. rewrite Hfilter, Hvalues. simpl.
    rewrite Hrender. reflexivity.
  - unfold related. rewrite (Permutation_length Hperm).
    symmetry. exact (Forall2_length HF).
  - unfold related. rewrite <- (Forall2_keys v_id _ _ _ HF).
    apply Permutation_map. exact Hperm.
  - intros v Hv. apply related_In in Hv. tauto.
  - unfold related.
    apply (sort_by_sorted (fun v => db_order w movie_video_values (v_id v))).
Qed.

Lemma Demo_catalog_integrity : catalog_integrity Demo.db.
Proof.
  split; simpl.
  - repeat constructor; simpl; intuition discriminate.
  - repeat constructor; simpl; intuition discriminate.
  - intros row [<-|[<-|[]]]; simpl; auto.
Qed.

(** The feature of the small installation has two videos attached. *)
Lemma playback_witness :
  exists videos,
    run (PlayMovie_get Demo.bob (m_uuid Demo.feature))
        (Demo.world Provider.unavailable) Demo.db
    = (Returned
         (TemplateResponse "playmovie.html"
            [("movie",
              CRecords
                (map (fun v => [("id", FInt (v_id v));
                                ("title", FStr (v_title v));
                                ("file", FStr (v_file v))])
                     videos))]),
       {| store := Demo.db; trace := [] |})
    /\ List.length videos = 2%nat
    /\ Permutation (map v_id videos) [3; 1]
    /\ (forall v, In v videos -> In v (Video_table Demo.db))
    /\ Sorted (fun a b => v_id a <= v_id b) videos.
Proof.
  apply (playback_returns_attached_videos
           (Demo.world Provider.unavailable) Demo.db Demo.bob
           (m_uuid Demo.feature) Demo.feature).
  - exact Demo_catalog_integrity.
  - simpl. auto.
  - reflexivity.
  - reflexivity.
  - reflexivity.
  - reflexivity.
Defined.

Module Reversed.

(** The small installation on a database that answers in the opposite
    order. *)
Definition world : World :=
  {| settings := Demo.conf;
     http := fun _ => Provider.unavailable;
     json_error_is_RequestException := true;
     db_fault := fun _ => None;
     db_order := fun _ pk => 100 - pk;
     render_fault := fun _ => None;
     uuid4 := "" |}.

End Reversed.

Example PlayMovie_feature_reversed :
  response_of (run (PlayMovie_get Demo.bob (m_uuid Demo.feature))
                 Reversed.world Demo.db)
  = Returned
      (TemplateResponse "playmovie.html"
         [("movie",
           CRecords [[("id", FInt 3); ("title", FStr "Trailer");
                      ("file", FStr "movies/trailer.mp4")];
                     [("id", FInt 1); ("title", FStr "Part one");
                      ("file", FStr "movies/one.mp4")]])]).
Proof. reflexivity. Qed.

(** ** The debug endpoint *)

(** C9.  Whoever asks, signed in or not, [debug_settings] answers with a
    JSON object of exactly four members, named SECURE_SSL_REDIRECT,
    SESSION_COOKIE_SECURE, CSRF_COOKIE_SECURE and DEBUG, in that order; the
    value of each is the one the configuration holds under that name, and
    [null] when the configuration holds none.  Nothing is asked of the
    request: the answer is the same without a signed-in user, and the view
    reads and records nothing else. *)
Theorem debug_settings_exposes_four_flags
    (w : World) (st : Store) (request : HttpRequest) :
  exists data,
    run (debug_settings request) w st
    = (Returned (JsonResponse data), {| store := st; trace := [] |})
    /\ map fst data
       = ["SECURE_SSL_REDIRECT"; "SESSION_COOKIE_SECURE";
          "CSRF_COOKIE_SECURE"; "DEBUG"]
    /\ (forall flag value,
          In flag ["SECURE_SSL_REDIRECT"; "SESSION_COOKIE_SECURE";
                   "CSRF_COOKIE_SECURE"; "DEBUG"] ->
          lookup flag (settings w) = Some value ->
          lookup flag data = Some value)
    /\ (forall flag,
          In flag ["SECURE_SSL_REDIRECT"; "SESSION_COOKIE_SECURE";
                   "CSRF_COOKIE_SECURE"; "DEBUG"] ->
          lookup flag (settings w) = None ->
          lookup flag data = Some PNone).
Proof.
  exists [("SECURE_SSL_REDIRECT", settings_getattr w "SECURE_SSL_REDIRECT");
          ("SESSION_COOKIE_SECURE",
           settings_getattr w "SESSION_COOKIE_SECURE");
          ("CSRF_COOKIE_SECURE", settings_getattr w "CSRF_COOKIE_SECURE");
          ("DEBUG", settings_getattr w "DEBUG")].
  split; [reflexivity|]. split; [reflexivity|]. split.
  - intros flag value Hflag Hset.
    destruct Hflag as [<-|[<-|[<-|[<-|[]]]]];
      cbn; unfold settings_getattr; rewrite Hset; reflexivity.
  - intros flag Hflag Hset.
    destruct Hflag as [<-|[<-|[<-|[<-|[]]]]];
      cbn; unfold settings_getattr; rewrite Hset; reflexivity.
Qed.

(** A request without a signed-in user reads the configured flags. *)
Lemma debug_settings_witness :
  exists data,
    run (debug_settings Demo.anonymous)
        (Demo.world Provider.unavailable) Demo.db
    = (Returned (JsonResponse data), {| store := Demo.db; trace := [] |})
    /\ lookup "SESSION_COOKIE_SECURE" data = Some (PBool true)
    /\ lookup "DEBUG" data = Some (PBool false).
Proof.
  destruct (debug_settings_exposes_four_flags
              (Demo.world Provider.unavailable) Demo.db Demo.anonymous)
    as [data [Hrun [_ [Hset _]]]].
  exists data. split; [exact Hrun|]. split.
  - apply Hset; [simpl; auto|reflexivity].
  - apply Hset; [simpl; auto 6|reflexivity].
Defined.

Example debug_settings_anonymous :
  response_of (run (debug_settings Demo.anonymous)
                 (Demo.world Provider.unavailable) Demo.db)
  = Returned
      (JsonResponse
         [("SECURE_SSL_REDIRECT", PBool true);
          ("SESSION_COOKIE_SECURE", PBool true);
          ("CSRF_COOKIE_SECURE", PBool false);
          ("DEBUG", PBool false)]).
Proof. reflexivity. Qed.

(** The decorated views, by contrast, turn the same request away. *)
Example PlayMovie_anonymous :
  response_of (run (PlayMovie_view (m_uuid Demo.feature) Demo.anonymous)
                 (Demo.world Provider.unavailable) Demo.db)
  = Returned (LoginRedirect "/debug/settings").
Proof. reflexivity. Qed.

(** ** Title Detail and Playback do not look at profiles or age categories *)

(** The same title with another age category. *)
Definition with_age_limit (f : Movie -> string) (m : Movie) : Movie :=
  {| m_id := m_id m; m_title := m_title m;
     m_description := m_description m; m_created := m_created m;
     m_uuid := m_uuid m; m_type := m_type m; m_image := m_image m;
     m_age_limit := f m |}.

(** The store with the age category of every title replaced. *)
Definition relabel_titles (f : Movie -> string) (st : Store) : Store :=
  {| Profile_table := Profile_table st;
     Movie_table := map (with_age_limit f) (Movie_table st);
     Video_table := Video_table st;
     CustomUser_profiles := CustomUser_profiles st;
     Movie_video := Movie_video st |}.

(** A response in which a title shown carries the replaced age category. *)
Definition relabel_response (f : Movie -> string) (r : Outcome HttpResponse)
    : Outcome HttpResponse :=
  match r with
  | Returned (TemplateResponse template context) =>
      Returned
        (TemplateResponse template
           (map (fun entry =>
                   (fst entry,
                    match snd entry with
                    | CMovie m => CMovie (with_age_limit f m)
                    | v => v
                    end))
                context))
  | _ => r
  end.

Lemma filter_uuid_relabel (f : Movie -> string) (id : uuid) (l : list Movie) :
  filter (fun m => String.eqb (m_uuid m) id) (map (with_age_limit f) l)
  = map (with_age_limit f) (filter (fun m => String.eqb (m_uuid m) id) l).
Proof.
  induction l as [|m l IH]; simpl; [reflexivity|].
  destruct (String.eqb (m_uuid m) id); simpl; rewrite IH; reflexivity.
Qed.

Lemma catalog_views_same_catalog (w : World) (st st' : Store)
    (request request' : HttpRequest) (id : uuid) :
  Movie_table st = Movie_table st' ->
  Video_table st = Video_table st' ->
  Movie_video st = Movie_video st' ->
  (response_of (run (MovieDetail_get request id) w st)
   = response_of (run (MovieDetail_get request' id) w st')
   /\ trace_of (run (MovieDetail_get request id) w st)
      = trace_of (run (MovieDetail_get request' id) w st'))
  /\
  (response_of (run (PlayMovie_get request id) w st)
   = response_of (run (PlayMovie_get request' id) w st')
   /\ trace_of (run (PlayMovie_get request id) w st)
      = trace_of (run (PlayMovie_get request' id) w st')).
Proof.
  intros HM HV HJ. destruct st, st'. simpl in HM, HV, HJ. subst.
  unfold_views. split; crunch; auto.
Qed.

Lemma catalog_views_relabel (w : World) (st : Store) (request : HttpRequest)
    (id : uuid) (f : Movie -> string) :
  response_of (run (MovieDetail_get request id) w (relabel_titles f st))
  = relabel_response f (response_of (run (MovieDetail_get request id) w st))
  /\
  response_of (run (PlayMovie_get request id) w (relabel_titles f st))
  = response_of (run (PlayMovie_get request id) w st).
Proof.
  unfold_views.
  destruct (db_fault w Movie_get); [split; crunch; auto|].
  simpl. rewrite filter_uuid_relabel.
  destruct (filter _ (Movie_table st)) as [|m [|m' l]]; simpl;
    split; crunch; auto.
Qed.

(** C10.  Title Detail and Playback never consult profiles or age
    categories.  For signed-in requesters, two runs on stores with the same
    catalog (titles, videos and their attachment) give the same response and
    the same log, whoever asks and whatever profiles exist, whoever owns
    them and whatever their age categories.  Replacing the age category of
    the titles changes nothing in what Playback answers, and in what Title
    Detail answers only the age category carried by the title it shows:
    the page is served all the same. *)
Theorem detail_and_playback_ignore_profiles
    (w : World) (st st' : Store) (request request' : HttpRequest) (id : uuid)
    (f : Movie -> string) :
  is_authenticated (user request) = true ->
  is_authenticated (user request') = true ->
  Movie_table st = Movie_table st' ->
  Video_table st = Video_table st' ->
  Movie_video st = Movie_video st' ->
  (response_of (run (MovieDetail_view id request) w st)
   = response_of (run (MovieDetail_view id request') w st')
   /\ trace_of (run (MovieDetail_view id request) w st)
      = trace_of (run (MovieDetail_view id request') w st'))
  /\
  (response_of (run (PlayMovie_view id request) w st)
   = response_of (run (PlayMovie_view id request') w st')
   /\ trace_of (run (PlayMovie_view id request) w st)
      = trace_of (run (PlayMovie_view id request') w st'))
  /\
  (response_of (run (MovieDetail_view id request) w (relabel_titles f st))
   = relabel_response f (response_of (run (MovieDetail_view id request) w st))
   /\
   response_of (run (PlayMovie_view id request) w (relabel_titles f st))
   = response_of (run (PlayMovie_view id request) w st)).
Proof.
  intros Hauth Hauth' HM HV HJ.
  unfold MovieDetail_view, PlayMovie_view, login_required.
  rewrite Hauth, Hauth'.
  destruct (catalog_views_same_catalog w st st' request request' id HM HV HJ)
    as [HD HP].
  split; [exact HD|]. split; [exact HP|].
  apply catalog_views_relabel.
Qed.

Module Elsewhere.

(** The catalog of the small installation where nobody has a profile. *)
Definition no_profiles : Store :=
  {| Profile_table := [];
     Movie_table := Movie_table Demo.db;
     Video_table := Video_table Demo.db;
     CustomUser_profiles := [];
     Movie_video := Movie_video Demo.db |}.

Definition kids_only (m : Movie) : string := "Kids".

End Elsewhere.

(** An account without any profile is shown the title like any other. *)
Example MovieDetail_without_profiles :
  run (MovieDetail_view (m_uuid Demo.feature) Demo.bob)
      (Demo.world Provider.unavailable) Elsewhere.no_profiles
  = (Returned
       (TemplateResponse "moviedetail.html" [("movie", CMovie Demo.feature)]),
     {| store := Elsewhere.no_profiles; trace := [] |}).
Proof. reflexivity. Qed.

Lemma detail_and_playback_witness :
  (response_of (run (MovieDetail_view (m_uuid Demo.feature) Demo.alice)
                  (Demo.world Provider.unavailable) Demo.db)
   = response_of (run (MovieDetail_view (m_uuid Demo.feature) Demo.bob)
                    (Demo.world Provider.unavailable) Elsewhere.no_profiles)
   /\ trace_of (run (MovieDetail_view (m_uuid Demo.feature) Demo.alice)
                  (Demo.world Provider.unavailable) Demo.db)
      = trace_of (run (MovieDetail_view (m_uuid Demo.feature) Demo.bob)
                    (Demo.world Provider.unavailable) Elsewhere.no_profiles))
  /\
  (response_of (run (PlayMovie_view (m_uuid Demo.feature) Demo.alice)
                  (Demo.world Provider.unavailable) Demo.db)
   = response_of (run (PlayMovie_view (m_uuid Demo.feature) Demo.bob)
                    (Demo.world Provider.unavailable) Elsewhere.no_profiles)
   /\ trace_of (run (PlayMovie_view (m_uuid Demo.feature) Demo.alice)
                  (Demo.world Provider.unavailable) Demo.db)
      = trace_of (run (PlayMovie_view (m_uuid Demo.feature) Demo.bob)
                    (Demo.world Provider.unavailable) Elsewhere.no_profiles))
  /\
  (response_of (run (MovieDetail_view (m_uuid Demo.feature) Demo.alice)
                  (Demo.world Provider.unavailable)
                  (relabel_titles Elsewhere.kids_only Demo.db))
   = relabel_response Elsewhere.kids_only
       (response_of (run (MovieDetail_view (m_uuid Demo.feature) Demo.alice)
                       (Demo.world Provider.unavailable) Demo.db))
   /\
   response_of (run (PlayMovie_view (m_uuid Demo.feature) Demo.alice)
                  (Demo.world Provider.unavailable)
                  (relabel_titles Elsewhere.kids_only Demo.db))
   = response_of (run (PlayMovie_view (m_uuid Demo.feature) Demo.alice)
                    (Demo.world Provider.unavailable) Demo.db)).
Proof.
  apply (detail_and_playback_ignore_profiles
           (Demo.world Provider.unavailable) Demo.db Elsewhere.no_profiles
           Demo.alice Demo.bob (m_uuid Demo.feature) Elsewhere.kids_only);
    reflexivity.
Defined.

(** ** Profile creation *)

Definition is_Inserted (ev : Event) : bool :=
  match ev with Inserted _ => true | _ => false end.

Definition is_AddCalled (ev : Event) : bool :=
  match ev with AddCalled _ _ => true | _ => false end.

(** The creation of the Profile row raises (whatever the fields). *)
Definition creation_raises (w : World) (st : Store) : Prop :=
  exists fields e,
    response_of (run (Profile_objects_create fields) w st) = Raised e.

Ltac unfold_post :=
  cbv beta iota zeta delta
    [run response_of trace_of store_of
     ProfileCreate_post ProfileCreate_post_try Profile_objects_create
     user_profiles_do_add truthy render redirect logger_error
     try_except find_clause catches handler
     bind ret raise ask get_store put_store emit may_fail].

Lemma creation_raises_cases (w : World) (st : Store) :
  creation_raises w st ->
  (exists e, db_fault w Profile_create = Some e)
  \/ existsb (fun p => String.eqb (p_uuid p) (uuid4 w)) (Profile_table st)
     = true.
Proof.
  intros [fields [e H]]. revert H. unfold_post.
  destruct (db_fault w Profile_create) as [e'|]; [eauto|].
  simpl. destruct (existsb _ _); [auto|]. simpl. discriminate.
Qed.

Lemma invalid_form_errors (form : Form) :
  is_bound form = true -> is_valid form = false -> errors form <> [].
Proof.
  unfold is_valid. intros ->. simpl.
  destruct (errors form); [discriminate|]. intros _. discriminate.
Qed.

Lemma add_error_errors (form : Form) (message : string) :
  errors (add_error form message) <> [].
Proof. unfold add_error. simpl. destruct (errors form); discriminate. Qed.

Lemma POST_or_None_bound (clean : QueryDict -> ErrorDict * ProfileFields)
    (request : HttpRequest) :
  POST request <> [] ->
  is_bound (ProfileForm clean (POST_or_None request)) = true.
Proof.
  unfold POST_or_None. destruct (POST request); [congruence|reflexivity].
Qed.

(** C3, as amended.  When validation fails or the creation of the Profile
    row raises, the creation form is rendered again, with an error message
    whenever the submission carried any field, and nothing is committed:
    the store is as it was, no Profile row was created and the
    add-to-account step was not called.  (The template is taken to render.)
    In every run, the add-to-account step is called only right after the
    Profile row has been created, for that row and the requesting account. *)
Theorem failed_submission_commits_nothing
    (clean : QueryDict -> ErrorDict * ProfileFields)
    (w : World) (st : Store) (request : HttpRequest) :
  (is_valid (ProfileForm clean (POST_or_None request)) = false
   \/ creation_raises w st ->
   render_fault w "profilecreate.html" = None ->
   exists form,
     response_of (run (ProfileCreate_post clean request) w st)
     = Returned (TemplateResponse "profilecreate.html" [("form", CForm form)])
     /\ (POST request <> [] -> errors form <> [])
     /\ store_of (run (ProfileCreate_post clean request) w st) = st
     /\ filter is_Inserted
          (trace_of (run (ProfileCreate_post clean request) w st)) = []
     /\ filter is_AddCalled
          (trace_of (run (ProfileCreate_post clean request) w st)) = [])
  /\
  (forall u pk,
     In (AddCalled u pk)
        (trace_of (run (ProfileCreate_post clean request) w st)) ->
     exists p later,
       trace_of (run (ProfileCreate_post clean request) w st)
       = Inserted p :: AddCalled u pk :: later
       /\ p_id p = pk /\ u = user_pk (user request)
       /\ In p (Profile_table
                  (store_of (run (ProfileCreate_post clean request) w st)))).
Proof.
  split.
  - intros Htrigger Hrender.
    pose proof (POST_or_None_bound clean request) as Hbound.
    pose proof (invalid_form_errors (ProfileForm clean (POST_or_None request)))
      as Herrors.
    unfold_post.
    destruct (is_valid (ProfileForm clean (POST_or_None request))) eqn:Hvalid.
    + destruct Htrigger as [Hv|Hraises]; [discriminate|].
      apply creation_raises_cases in Hraises.
      assert (Hb : is_bound (ProfileForm clean (POST_or_None request)) = true).
      { unfold is_valid in Hvalid. apply andb_prop in Hvalid. tauto. }
      destruct (cleaned_data (ProfileForm clean (POST_or_None request)))
        as [fields|] eqn:Hcleaned.
      * simpl. destruct Hraises as [[e He]|Hdup].
        -- rewrite He.
           repeat (simpl; rewrite ?isinstance_Exception, ?Hrender).
           eexists. split; [reflexivity|]. split; [|auto].
           intros _. apply add_error_errors.
        -- destruct (db_fault w Profile_create);
             repeat (simpl; rewrite ?isinstance_Exception, ?Hrender, ?Hdup);
             (eexists; split; [reflexivity|]; split; [|auto]);
             intros _; apply add_error_errors.
      * repeat (simpl; rewrite ?isinstance_Exception, ?Hrender).
        eexists. split; [reflexivity|]. split; [|auto].
        intros _. apply add_error_errors.
    + simpl. rewrite Hrender. simpl. eexists. split; [reflexivity|].
      split; [|auto]. intros Hne. apply Herrors; auto.
  - intros u pk. unfold_post. crunch; intros Hin;
      repeat match goal with
             | H : _ \/ _ |- _ => destruct H
             | H : False |- _ => destruct H
             | H : AddCalled _ _ = AddCalled _ _ |- _ =>
                 inversion H; subst; clear H
             end;
      try discriminate;
      (eexists; eexists; split; [reflexivity|]; split; [reflexivity|];
       split; [reflexivity|]);
      apply in_or_app; simpl; auto.
Qed.

Module Submission.

Definition too_young : HttpRequest :=
  {| user := {| user_pk := 1; is_authenticated := true |};
     POST := [("name", "Nursery"); ("age_limit", "Toddlers")];
     path := "/profiles/new" |}.

Definition kids_room_again : HttpRequest :=
  {| user := {| user_pk := 2; is_authenticated := true |};
     POST := [("name", "Kids Room II"); ("age_limit", "Kids")];
     path := "/profiles/new" |}.

Definition empty : HttpRequest :=
  {| user := {| user_pk := 1; is_authenticated := true |};
     POST := []; path := "/profiles/new" |}.

End Submission.

(** A valid submission on the small installation: the row is created, then
    attached. *)
Example ProfileCreate_post_valid :
  run (ProfileCreate_post ProfileForm_clean Submission.kids_room_again)
      (Demo.world Provider.unavailable) Demo.db
  = (let created :=
       {| p_id := 3; p_name := "Kids Room II"; p_age_limit := "Kids";
          p_uuid := "33333333-3333-4333-8333-333333333333" |} in
     (Returned to_profile_list,
      {| store :=
           {| Profile_table := [Demo.kids_room; Demo.den; created];
              Movie_table := Movie_table Demo.db;
              Video_table := Video_table Demo.db;
              CustomUser_profiles := [(1, 1); (2, 2); (2, 3)];
              Movie_video := Movie_video Demo.db |};
         trace := [Inserted created; AddCalled 2 3] |})).
Proof. reflexivity. Qed.

(** A submission with an age category outside the choices. *)
Lemma failed_submission_witness :
  exists form,
    response_of (run (ProfileCreate_post ProfileForm_clean Submission.too_young)
                   (Demo.world Provider.unavailable) Demo.db)
    = Returned (TemplateResponse "profilecreate.html" [("form", CForm form)])
    /\ (POST Submission.too_young <> [] -> errors form <> [])
    /\ store_of (run (ProfileCreate_post ProfileForm_clean
                        Submission.too_young)
                   (Demo.world Provider.unavailable) Demo.db) = Demo.db
    /\ filter is_Inserted
         (trace_of (run (ProfileCreate_post ProfileForm_clean
                           Submission.too_young)
                      (Demo.world Provider.unavailable) Demo.db)) = []
    /\ filter is_AddCalled
         (trace_of (run (ProfileCreate_post ProfileForm_clean
                           Submission.too_young)
                      (Demo.world Provider.unavailable) Demo.db)) = [].
Proof.
  apply (proj1 (failed_submission_commits_nothing ProfileForm_clean
                  (Demo.world Provider.unavailable) Demo.db
                  Submission.too_young)).
  - left. reflexivity.
  - reflexivity.
Defined.

(** C3, as stated, fails.  A submission without any field makes
    [request.POST or None] hand [None] to the form: the form is unbound,
    so it is not valid, and it is rendered again without any error
    message. *)
Lemma empty_submission_counterexample :
  is_valid (ProfileForm ProfileForm_clean (POST_or_None Submission.empty))
  = false
  /\ run (ProfileCreate_post ProfileForm_clean Submission.empty)
         (Demo.world Provider.unavailable) Demo.db
     = (Returned
          (TemplateResponse "profilecreate.html"
             [("form", CForm {| is_bound := false; errors := [];
                                cleaned_data := None |})]),
        {| store := Demo.db; trace := [] |}).
Proof. split; reflexivity. Qed.

(** ** Validation of the submitted fields *)

(** A name of more than 200 characters was submitted. *)
Definition name_too_long (data : QueryDict) : bool :=
  match lookup "name" data with
  | Some s => Nat.ltb 200 (String.length s)
  | None => false
  end.

(** The age category submitted, if any, is neither "All" nor "Kids". *)
Definition age_category_outside_enum (data : QueryDict) : bool :=
  match lookup "age_limit" data with
  | Some a => negb (String.eqb a "All" || String.eqb a "Kids")
  | None => true
  end.

Lemma ProfileForm_clean_rejects (data : QueryDict) :
  name_too_long data = true \/ age_category_outside_enum data = true ->
  fst (ProfileForm_clean data) <> [].
Proof.
  unfold name_too_long, age_category_outside_enum, ProfileForm_clean.
  cbn [fst].
  intros [Hname|Hage].
  - destruct (lookup "name" data) as [s|]; [|discriminate].
    apply Nat.ltb_lt in Hname.
    destruct s as [|c s]; [simpl in Hname; lia|].
    apply Nat.leb_gt in Hname. rewrite Hname. discriminate.
  - destruct (lookup "name" data) as [[|c s]|];
      try discriminate.
    destruct (Nat.leb _ 200); [|discriminate].
    destruct (lookup "age_limit" data) as [[|c' a]|];
      try discriminate.
    destruct (existsb _ AGE_CHOICES) eqn:E; [exfalso|discriminate].
    apply existsb_exists in E. destruct E as [choice [Hin Heq]].
    apply String.eqb_eq in Heq.
    destruct Hin as [<-|[<-|[]]]; simpl in Heq; rewrite <- Heq in Hage;
      discriminate Hage.
Qed.

Lemma ProfileCreate_post_invalid
    (clean : QueryDict -> ErrorDict * ProfileFields)
    (w : World) (st : Store) (request : HttpRequest) :
  is_valid (ProfileForm clean (POST_or_None request)) = false ->
  store_of (run (ProfileCreate_post clean request) w st) = st
  /\ trace_of (run (ProfileCreate_post clean request) w st) = [].
Proof.
  intros Hvalid. unfold_post. rewrite Hvalid. simpl.
  destruct (render_fault w "profilecreate.html"); auto.
Qed.

(** C7.  A submission whose name has more than 200 characters, or whose
    age category is not one of "All" and "Kids", does not pass the
    validation of the profile form; the view then creates no Profile row and
    leaves the account's profiles, like the whole store, as they were. *)
Theorem invalid_fields_create_nothing
    (w : World) (st : Store) (request : HttpRequest) :
  name_too_long (POST request) = true
  \/ age_category_outside_enum (POST request) = true ->
  is_valid (ProfileForm ProfileForm_clean (POST_or_None request)) = false
  /\ store_of (run (ProfileCreate_post ProfileForm_clean request) w st) = st
  /\ trace_of (run (ProfileCreate_post ProfileForm_clean request) w st) = [].
Proof.
  intros Hbad.
  assert (Hvalid : is_valid (ProfileForm ProfileForm_clean
                               (POST_or_None request)) = false).
  { unfold POST_or_None. destruct (POST request) as [|field fields] eqn:HP.
    - reflexivity.
    - unfold is_valid, ProfileForm. cbn [is_bound errors andb].
      pose proof (ProfileForm_clean_rejects (field :: fields) Hbad) as Hne.
      destruct (fst (ProfileForm_clean (field :: fields)));
        [congruence|reflexivity]. }
  split; [exact Hvalid|].
  apply ProfileCreate_post_invalid. exact Hvalid.
Qed.

Lemma invalid_fields_witness :
  is_valid (ProfileForm ProfileForm_clean (POST_or_None Submission.too_young))
  = false
  /\ store_of (run (ProfileCreate_post ProfileForm_clean Submission.too_young)
                 (Demo.world Provider.unavailable) Demo.db) = Demo.db
  /\ trace_of (run (ProfileCreate_post ProfileForm_clean Submission.too_young)
                 (Demo.world Provider.unavailable) Demo.db) = [].
Proof.
  apply (invalid_fields_create_nothing (Demo.world Provider.unavailable)
           Demo.db Submission.too_young).
  right. reflexivity.
Defined.

(** * Further properties of the views *)

Ltac unfold_more :=
  cbv beta iota zeta delta
    [run response_of trace_of store_of
     Home_get ProfileList_get ProfileCreate_get
     MovieList_get MovieList_get_try MovieDetail_get MovieDetail_get_try
     PlayMovie_get PlayMovie_get_try debug_settings
     ProfileCreate_post ProfileCreate_post_try Profile_objects_create
     user_profiles_do_add truthy
     Profile_objects_get Movie_objects_get objects_get user_profiles
     movie_video_values_list settings_attr requests_get raise_for_status
     Response_json data_get render redirect logger_warning logger_error
     try_except find_clause catches handler transport_exn
     bind ret raise ask get_store put_store emit may_fail].

(** ** Reading views *)

(** X10.  The views that only read leave the store as they found it, on
    every path, failures included: the landing page, the profile listing,
    the creation form, the three catalog views and the debug endpoint write
    nothing. *)
Theorem reading_views_leave_store_unchanged
    (clean : QueryDict -> ErrorDict * ProfileFields)
    (w : World) (st : Store) (request : HttpRequest) (id : uuid) :
  store_of (run (Home_get request) w st) = st
  /\ store_of (run (ProfileList_get request) w st) = st
  /\ store_of (run (ProfileCreate_get clean request) w st) = st
  /\ store_of (run (MovieList_get request id) w st) = st
  /\ store_of (run (MovieDetail_get request id) w st) = st
  /\ store_of (run (PlayMovie_get request id) w st) = st
  /\ store_of (run (debug_settings request) w st) = st.
Proof.
  unfold_more. repeat split; crunch; reflexivity.
Qed.

(** ** The profile listing *)

Lemma related_intro {A : Type} (pk : A -> N) (rank : N -> N)
    (rel : list (N * N)) (key : N) (table : list A) (r : A) :
  In r table -> In (key, pk r) rel -> In r (related pk rank rel key table).
Proof.
  intros Ht Hrel. unfold related. apply In_sort_by. unfold joined.
  apply in_flat_map.
  exists (key, pk r). split; [exact Hrel|]. simpl.
  rewrite N.eqb_refl. apply filter_In. split; [exact Ht|]. apply N.eqb_refl.
Qed.

(** X5.  The profile listing shows the profiles of the requesting account
    and no others: a stored profile is on the page exactly when a join row
    links it to the account.  (The query answers and the template
    renders.) *)
Theorem profile_list_shows_owned_profiles
    (w : World) (st : Store) (request : HttpRequest) :
  db_fault w user_profiles_all = None ->
  render_fault w "profilelist.html" = None ->
  exists profiles,
    run (ProfileList_get request) w st
    = (Returned
         (TemplateResponse "profilelist.html"
            [("profiles", CProfiles profiles)]),
       {| store := st; trace := [] |})
    /\ forall p,
         In p profiles
         <-> In p (Profile_table st)
             /\ In (user_pk (user request), p_id p) (CustomUser_profiles st).
Proof.
  intros Hall Hrender.
  exists (related p_id (db_order w user_profiles_all)
            (CustomUser_profiles st) (user_pk (user request))
            (Profile_table st)).
  split.
  - unfold_more. rewrite Hall. simpl. rewrite Hrender. reflexivity.
  - intros p. split.
    + apply related_In.
    + intros [Ht Hrel]. apply related_intro; assumption.
Qed.

Lemma profile_list_witness :
  exists profiles,
    run (ProfileList_get Demo.bob) (Demo.world Provider.unavailable) Demo.db
    = (Returned
         (TemplateResponse "profilelist.html"
            [("profiles", CProfiles profiles)]),
       {| store := Demo.db; trace := [] |})
    /\ forall p,
         In p profiles
         <-> In p (Profile_table Demo.db)
             /\ In (user_pk (user Demo.bob), p_id p)
                   (CustomUser_profiles Demo.db).
Proof.
  apply (profile_list_shows_owned_profiles
           (Demo.world Provider.unavailable) Demo.db Demo.bob);
    reflexivity.
Defined.

Example ProfileList_bob :
  response_of (run (ProfileList_get Demo.bob)
                 (Demo.world Provider.unavailable) Demo.db)
  = Returned
      (TemplateResponse "profilelist.html"
         [("profiles", CProfiles [Demo.den])]).
Proof. reflexivity. Qed.

(** ** Creating a profile *)

(** The row [Profile.objects.create] inserts. *)
Definition new_profile (w : World) (st : Store) (fields : ProfileFields)
    : Profile :=
  {| p_id := next_pk (Profile_table st);
     p_name := name fields;
     p_age_limit := age_limit fields;
     p_uuid := uuid4 w |}.

Lemma existsb_uuid_fresh (id : uuid) (table : list Profile) :
  (forall p, In p table -> p_uuid p <> id) ->
  existsb (fun p => String.eqb (p_uuid p) id) table = false.
Proof.
  intros Hfresh. destruct (existsb _ table) eqn:E; [exfalso|reflexivity].
  apply existsb_exists in E. destruct E as [p [Hp Heq]].
  apply String.eqb_eq in Heq. exact (Hfresh p Hp Heq).
Qed.

Lemma existsb_uuid_false (id : uuid) (table : list Profile) :
  existsb (fun p => String.eqb (p_uuid p) id) table = false ->
  ~ In id (map p_uuid table).
Proof.
  intros E Hin. apply in_map_iff in Hin. destruct Hin as [p [Hid Hp]].
  assert (existsb (fun p => String.eqb (p_uuid p) id) table = true).
  { apply existsb_exists. exists p. split; [exact Hp|].
    apply String.eqb_eq. exact Hid. }
  congruence.
Qed.

Lemma valid_form_bound (clean : QueryDict -> ErrorDict * ProfileFields)
    (request : HttpRequest) :
  POST request <> [] ->
  fst (clean (POST request)) = [] ->
  ProfileForm clean (POST_or_None request)
  = {| is_bound := true; errors := [];
       cleaned_data := Some (snd (clean (POST request))) |}.
Proof.
  intros Hne Hok. unfold POST_or_None, ProfileForm.
  destruct (POST request) as [|field fields]; [congruence|].
  rewrite Hok. reflexivity.
Qed.

(** The store once [row] has been added to the account's join table. *)
Definition with_join_row (row : N * N) (rel : list (N * N)) : list (N * N) :=
  if existsb (pair_eqb row) rel then rel else (rel ++ [row])%list.

Lemma with_join_row_In (row : N * N) (rel : list (N * N)) :
  In row (with_join_row row rel).
Proof.
  unfold with_join_row. destruct (existsb _ rel) eqn:Hthere.
  - apply existsb_exists in Hthere. destruct Hthere as [[u q] [Hin Heq]].
    unfold pair_eqb in Heq. simpl in Heq. apply andb_prop in Heq.
    destruct Heq as [Hu Hq]. apply N.eqb_eq in Hu, Hq.
    destruct row as [u' q']. simpl in Hu, Hq. subst. exact Hin.
  - apply in_or_app. right. simpl. auto.
Qed.

Lemma ProfileCreate_post_success
    (clean : QueryDict -> ErrorDict * ProfileFields)
    (w : World) (st : Store) (request : HttpRequest) :
  POST request <> [] ->
  fst (clean (POST request)) = [] ->
  db_fault w Profile_create = None ->
  db_fault w user_profiles_add = None ->
  (forall p, In p (Profile_table st) -> p_uuid p <> uuid4 w) ->
  run (ProfileCreate_post clean request) w st
  = (Returned to_profile_list,
     {| store :=
          {| Profile_table :=
               (Profile_table st
                ++ [new_profile w st (snd (clean (POST request)))])%list;
             Movie_table := Movie_table st;
             Video_table := Video_table st;
             CustomUser_profiles :=
               with_join_row
                 (user_pk (user request),
                  p_id (new_profile w st (snd (clean (POST request)))))
                 (CustomUser_profiles st);
             Movie_video := Movie_video st |};
        trace :=
          [Inserted (new_profile w st (snd (clean (POST request))));
           AddCalled (user_pk (user request))
             (p_id (new_profile w st (snd (clean (POST request)))))] |}).
Proof.
  intros Hne Hok Hcreate Hadd Hfresh.
  unfold_more. rewrite (valid_form_bound clean request Hne Hok).
  cbn [is_valid is_bound errors cleaned_data andb].
  rewrite Hcreate. cbn [store trace].
  rewrite (existsb_uuid_fresh _ _ Hfresh). cbn [store trace app].
  rewrite Hadd. cbn [store trace CustomUser_profiles Profile_table app].
  unfold with_join_row, new_profile. cbn [p_id].
  destruct (existsb _ (CustomUser_profiles st)); reflexivity.
Qed.

(** X1.  A submission that carries fields and passes validation, on a
    database that accepts the two writes, creates one Profile row from the
    cleaned fields (fresh primary key, fresh UUID), links it to the
    requesting account and answers with the redirect to the profile
    listing; nothing is logged and the catalog is untouched. *)
Theorem valid_submission_creates_and_attaches
    (clean : QueryDict -> ErrorDict * ProfileFields)
    (w : World) (st : Store) (request : HttpRequest) :
  POST request <> [] ->
  fst (clean (POST request)) = [] ->
  db_fault w Profile_create = None ->
  db_fault w user_profiles_add = None ->
  (forall p, In p (Profile_table st) -> p_uuid p <> uuid4 w) ->
  let created := new_profile w st (snd (clean (POST request))) in
  let after := run (ProfileCreate_post clean request) w st in
  response_of after = Returned to_profile_list
  /\ trace_of after
     = [Inserted created; AddCalled (user_pk (user request)) (p_id created)]
  /\ Profile_table (store_of after) = (Profile_table st ++ [created])%list
  /\ In (user_pk (user request), p_id created)
        (CustomUser_profiles (store_of after))
  /\ Movie_table (store_of after) = Movie_table st
  /\ Video_table (store_of after) = Video_table st
  /\ Movie_video (store_of after) = Movie_video st.
Proof.
  intros Hne Hok Hcreate Hadd Hfresh. cbv zeta.
  rewrite (ProfileCreate_post_success clean w st request
             Hne Hok Hcreate Hadd Hfresh).
  unfold response_of, trace_of, store_of. simpl.
  repeat split. apply with_join_row_In.
Qed.

Lemma valid_submission_witness :
  response_of (run (ProfileCreate_post ProfileForm_clean
                      Submission.kids_room_again)
                 (Demo.world Provider.unavailable) Demo.db)
  = Returned to_profile_list
  /\ Profile_table
       (store_of (run (ProfileCreate_post ProfileForm_clean
                         Submission.kids_room_again)
                    (Demo.world Provider.unavailable) Demo.db))
     = [Demo.kids_room; Demo.den;
        {| p_id := 3; p_name := "Kids Room II"; p_age_limit := "Kids";
           p_uuid := "33333333-3333-4333-8333-333333333333" |}].
Proof.
  pose proof (valid_submission_creates_and_attaches ProfileForm_clean
                (Demo.world Provider.unavailable) Demo.db
                Submission.kids_room_again) as H.
  cbv zeta in H.
  destruct H as [Hr [_ [Ht _]]].
  - discriminate.
  - reflexivity.
  - reflexivity.
  - reflexivity.
  - intros p Hp. simpl in Hp. destruct Hp as [<-|[<-|[]]]; discriminate.
  - split; [exact Hr|exact Ht].
Defined.

(** X2.  When the Profile row has been created and the add-to-account step
    then fails, the exception is caught like any other: the error is
    logged, the form is rendered again with the form-level message, and the
    new row stays in the Profile table, linked to nobody. *)
Theorem add_failure_leaves_unattached_profile
    (clean : QueryDict -> ErrorDict * ProfileFields)
    (w : World) (st : Store) (request : HttpRequest) (e : exn) :
  POST request <> [] ->
  fst (clean (POST request)) = [] ->
  db_fault w Profile_create = None ->
  db_fault w user_profiles_add = Some e ->
  (forall p, In p (Profile_table st) -> p_uuid p <> uuid4 w) ->
  render_fault w "profilecreate.html" = None ->
  let created := new_profile w st (snd (clean (POST request))) in
  run (ProfileCreate_post clean request) w st
  = (Returned
       (TemplateResponse "profilecreate.html"
          [("form",
            CForm {| is_bound := true;
                     errors := [("__all__",
                                 "An error occurred while creating the profile.")];
                     cleaned_data := Some (snd (clean (POST request))) |})]),
     {| store :=
          {| Profile_table := (Profile_table st ++ [created])%list;
             Movie_table := Movie_table st;
             Video_table := Video_table st;
             CustomUser_profiles := CustomUser_profiles st;
             Movie_video := Movie_video st |};
        trace := [Inserted created;
                  AddCalled (user_pk (user request)) (p_id created);
                  Log ERROR ("Error creating profile: " ++ exn_str e)] |}).
Proof.
  intros Hne Hok Hcreate Hadd Hfresh Hrender.
  unfold_more. rewrite (valid_form_bound clean request Hne Hok).
  cbn [is_valid is_bound errors cleaned_data andb].
  rewrite Hcreate. cbn [store trace].
  rewrite (existsb_uuid_fresh _ _ Hfresh). cbn [store trace app].
  rewrite Hadd. rewrite isinstance_Exception. cbn [store trace app].
  rewrite Hrender. reflexivity.
Qed.

Module Outage.

(** The small installation where the join table cannot be written. *)
Definition join_table_locked : World :=
  {| settings := Demo.conf;
     http := fun _ => Provider.unavailable;
     json_error_is_RequestException := true;
     db_fault := fun op =>
       match op with
       | user_profiles_add => Some (Exn DatabaseError "database is locked")
       | _ => None
       end;
     db_order := fun _ pk => pk;
     render_fault := fun _ => None;
     uuid4 := "33333333-3333-4333-8333-333333333333" |}.

End Outage.

Lemma add_failure_witness :
  store_of (run (ProfileCreate_post ProfileForm_clean
                   Submission.kids_room_again)
              Outage.join_table_locked Demo.db)
  = {| Profile_table :=
         [Demo.kids_room; Demo.den;
          {| p_id := 3; p_name := "Kids Room II"; p_age_limit := "Kids";
             p_uuid := "33333333-3333-4333-8333-333333333333" |}];
       Movie_table := Movie_table Demo.db;
       Video_table := Video_table Demo.db;
       CustomUser_profiles := [(1, 1); (2, 2)];
       Movie_video := Movie_video Demo.db |}.
Proof.
  pose proof (add_failure_leaves_unattached_profile ProfileForm_clean
                Outage.join_table_locked Demo.db Submission.kids_room_again
                (Exn DatabaseError "database is locked")) as H.
  cbv zeta in H. unfold store_of. rewrite H.
  - reflexivity.
  - discriminate.
  - reflexivity.
  - reflexivity.
  - reflexivity.
  - intros p Hp. simpl in Hp. destruct Hp as [<-|[<-|[]]]; discriminate.
  - reflexivity.
Defined.

(** X3.  Whatever is submitted and whatever fails, one run of the creation
    view only appends: the Profile table grows by at most one row and the
    account's join table by at most one row, every row that was there stays
    where it was, a join row is only added together with a Profile row, for
    that row and the requesting account, and the catalog tables are not
    touched. *)
Theorem profile_creation_only_appends
    (clean : QueryDict -> ErrorDict * ProfileFields)
    (w : World) (st : Store) (request : HttpRequest) :
  exists created linked,
    Profile_table (store_of (run (ProfileCreate_post clean request) w st))
    = (Profile_table st ++ created)%list
    /\ CustomUser_profiles
         (store_of (run (ProfileCreate_post clean request) w st))
       = (CustomUser_profiles st ++ linked)%list
    /\ (List.length created <= 1)%nat
    /\ (List.length linked <= 1)%nat
    /\ (forall row, In row linked ->
          exists p, created = [p]
                    /\ row = (user_pk (user request), p_id p))
    /\ Movie_table (store_of (run (ProfileCreate_post clean request) w st))
       = Movie_table st
    /\ Video_table (store_of (run (ProfileCreate_post clean request) w st))
       = Video_table st
    /\ Movie_video (store_of (run (ProfileCreate_post clean request) w st))
       = Movie_video st.
Proof.
  unfold_more. crunch;
    first
      [ exists [], []; rewrite !app_nil_r;
        repeat split; simpl; auto; intros row []
      | eexists [_], []; rewrite ?app_nil_r;
        repeat split; simpl; auto; intros row []
      | eexists [_], [_];
        repeat split; simpl; auto;
        intros row [<-|[]]; eexists; split; reflexivity ].
Qed.

Lemma NoDup_snoc {A : Type} (l : list A) (x : A) :
  NoDup l -> ~ In x l -> NoDup (l ++ [x]).
Proof.
  induction l as [|a l IH]; simpl; intros Hnd Hx.
  - constructor; [auto|constructor].
  - inversion Hnd as [|? ? Ha Hl]; subst. constructor.
    + intros Hin. apply in_app_or in Hin. destruct Hin as [Hin|[<-|[]]]; tauto.
    + apply IH; tauto.
Qed.

(** X4.  The unique constraint on [Profile.uuid] survives the creation
    view: if the stored profiles have pairwise different UUIDs before a
    submission, they have afterwards, whatever was submitted and whatever
    failed (a colliding UUID makes the creation raise instead). *)
Theorem profile_uuids_stay_unique
    (clean : QueryDict -> ErrorDict * ProfileFields)
    (w : World) (st : Store) (request : HttpRequest) :
  NoDup (map p_uuid (Profile_table st)) ->
  NoDup (map p_uuid
           (Profile_table
              (store_of (run (ProfileCreate_post clean request) w st)))).
Proof.
  intros Hnd. unfold_more. crunch; try exact Hnd;
    rewrite map_app; simpl; apply NoDup_snoc; try exact Hnd;
    apply existsb_uuid_false; assumption.
Qed.

Lemma profile_uuids_witness :
  NoDup (map p_uuid
           (Profile_table
              (store_of (run (ProfileCreate_post ProfileForm_clean
                                Submission.kids_room_again)
                           (Demo.world Provider.unavailable) Demo.db)))).
Proof.
  apply (profile_uuids_stay_unique ProfileForm_clean
           (Demo.world Provider.unavailable) Demo.db
           Submission.kids_room_again).
  simpl. repeat constructor; simpl; intuition discriminate.
Defined.

Lemma next_pk_fresh (table : list Profile) (p : Profile) :
  In p table -> p_id p < next_pk table.
Proof.
  unfold next_pk. induction table as [|q table IH]; simpl; [contradiction|].
  intros [->|Hin]; [lia|]. specialize (IH Hin). lia.
Qed.

(** X6.  Creating, then listing.  After a successful submission the new
    profile is on the profile listing of the account that created it, and
    on the listing of no other account (the join table referring to stored
    profiles only, as its foreign key demands). *)
Theorem created_profile_is_listed_for_its_creator
    (clean : QueryDict -> ErrorDict * ProfileFields)
    (w : World) (st : Store) (request : HttpRequest) :
  POST request <> [] ->
  fst (clean (POST request)) = [] ->
  db_fault w Profile_create = None ->
  db_fault w user_profiles_add = None ->
  (forall p, In p (Profile_table st) -> p_uuid p <> uuid4 w) ->
  db_fault w user_profiles_all = None ->
  render_fault w "profilelist.html" = None ->
  (forall row, In row (CustomUser_profiles st) ->
     exists q, In q (Profile_table st) /\ p_id q = snd row) ->
  let created := new_profile w st (snd (clean (POST request))) in
  let st' := store_of (run (ProfileCreate_post clean request) w st) in
  (exists profiles,
     response_of (run (ProfileList_get request) w st')
     = Returned
         (TemplateResponse "profilelist.html"
            [("profiles", CProfiles profiles)])
     /\ In created profiles)
  /\
  (forall other,
     user_pk (user other) <> user_pk (user request) ->
     exists profiles,
       response_of (run (ProfileList_get other) w st')
       = Returned
           (TemplateResponse "profilelist.html"
              [("profiles", CProfiles profiles)])
       /\ ~ In created profiles).
Proof.
  intros Hne Hok Hcreate Hadd Hfresh Hall Hrender Hfk. cbv zeta.
  rewrite (ProfileCreate_post_success clean w st request
             Hne Hok Hcreate Hadd Hfresh).
  unfold store_of. cbn [snd store].
  set (created := new_profile w st (snd (clean (POST request)))).
  split.
  - eexists. split.
    + unfold_more. rewrite Hall. cbn [store trace]. rewrite Hrender.
      reflexivity.
    + apply related_intro; cbn [Profile_table CustomUser_profiles].
      * apply in_or_app. right. simpl. auto.
      * apply with_join_row_In.
  - intros other Hother. eexists. split.
    + unfold_more. rewrite Hall. cbn [store trace]. rewrite Hrender.
      reflexivity.
    + intros Hin. apply related_In in Hin.
      cbn [Profile_table CustomUser_profiles] in Hin.
      destruct Hin as [_ Hrow].
      assert (Hold : In (user_pk (user other), p_id created)
                       (CustomUser_profiles st)).
      { unfold with_join_row in Hrow.
        destruct (existsb _ (CustomUser_profiles st)); [exact Hrow|].
        apply in_app_or in Hrow. destruct Hrow as [Hrow|[Heq|[]]];
          [exact Hrow|]. inversion Heq. congruence. }
      destruct (Hfk _ Hold) as [q [Hq Hpk]]. simpl in Hpk.
      pose proof (next_pk_fresh _ _ Hq) as Hlt.
      rewrite Hpk in Hlt. unfold created, new_profile in Hlt.
      simpl in Hlt. lia.
Qed.

Lemma created_profile_witness :
  (exists profiles,
     response_of
       (run (ProfileList_get Submission.kids_room_again)
          (Demo.world Provider.unavailable)
          (store_of (run (ProfileCreate_post ProfileForm_clean
                            Submission.kids_room_again)
                       (Demo.world Provider.unavailable) Demo.db)))
     = Returned
         (TemplateResponse "profilelist.html"
            [("profiles", CProfiles profiles)])
     /\ In (new_profile (Demo.world Provider.unavailable) Demo.db
              {| name := "Kids Room II"; age_limit := "Kids" |})
           profiles).
Proof.
  pose proof (created_profile_is_listed_for_its_creator ProfileForm_clean
                (Demo.world Provider.unavailable) Demo.db
                Submission.kids_room_again) as H.
  cbv zeta in H. apply H.
  - discriminate.
  - reflexivity.
  - reflexivity.
  - reflexivity.
  - intros p Hp. simpl in Hp. destruct Hp as [<-|[<-|[]]]; discriminate.
  - reflexivity.
  - reflexivity.
  - intros row Hrow. simpl in Hrow.
    destruct Hrow as [<-|[<-|[]]]; simpl.
    + exists Demo.kids_room. auto.
    + exists Demo.den. auto.
Defined.

(** ** The movie list, past the ownership test *)

(** The owner of the profile asks, and the database answers: the lookup and
    the listing of the account's profiles do not fail, the UUIDs of the
    stored profiles are pairwise different (the unique constraint), and the
    profile asked for is linked to the requesting account. *)
Record owner_asks (w : World) (st : Store) (request : HttpRequest)
    (id : uuid) : Prop := {
  lookup_answers : db_fault w Profile_get = None;
  listing_answers : db_fault w user_profiles_all = None;
  uuids_unique : NoDup (map p_uuid (Profile_table st));
  owned : exists p,
      In p (Profile_table st) /\ p_uuid p = id
      /\ In (user_pk (user request), p_id p) (CustomUser_profiles st)
}.

Lemma owner_passes (w : World) (st : Store) (request : HttpRequest)
    (id : uuid) :
  owner_asks w st request id ->
  exists p,
    filter (fun q => String.eqb (p_uuid q) id) (Profile_table st) = [p]
    /\ Profile_in p (related p_id (db_order w user_profiles_all)
                       (CustomUser_profiles st)
                       (user_pk (user request)) (Profile_table st)) = true.
Proof.
  intros [_ _ Hnd [p [Hin [Hid Hrel]]]].
  destruct (filter_key_unique p_uuid String.eqb String.eqb_eq
              (Profile_table st) id Hnd) as [p' [Hfilter _]].
  { rewrite <- Hid. apply in_map. exact Hin. }
  assert (Hp : In p (filter (fun q => String.eqb (p_uuid q) id)
                       (Profile_table st))).
  { apply filter_In. split; [exact Hin|]. apply String.eqb_eq. exact Hid. }
  rewrite Hfilter in Hp. destruct Hp as [->|[]].
  exists p. split; [exact Hfilter|].
  unfold Profile_in. apply existsb_exists. exists p.
  split; [|apply N.eqb_refl]. apply related_intro; assumption.
Qed.

(** A status [raise_for_status] lets through. *)
Definition status_passes (r : Response) : Prop :=
  status_code r < 400 \/ 600 <= status_code r.

Lemma status_passes_tests (r : Response) :
  status_passes r ->
  (400 <=? status_code r) && (status_code r <? 500) = false
  /\ (500 <=? status_code r) && (status_code r <? 600) = false.
Proof.
  unfold status_passes. intros H.
  destruct (N.leb_spec 400 (status_code r)),
           (N.ltb_spec (status_code r) 500),
           (N.leb_spec 500 (status_code r)),
           (N.ltb_spec (status_code r) 600); simpl; split; auto; lia.
Qed.

(** Run Movie List up to the outbound call, for the owner. *)
Ltac pass_gate Howner Hkey :=
  let p := fresh "p" in
  let Hfilter := fresh "Hfilter" in
  let Hin := fresh "Hin" in
  destruct (owner_passes _ _ _ _ Howner) as [p [Hfilter Hin]];
  unfold_views;
  rewrite (lookup_answers _ _ _ _ Howner); cbn [store trace];
  rewrite Hfilter; cbn [store trace];
  rewrite (listing_answers _ _ _ _ Howner); cbn [store trace];
  rewrite Hin; cbn [negb store trace];
  rewrite Hkey; cbn [store trace app].

(** X8.  Without an API key in the configuration the owner of a profile is
    not shown the movie list: reading the key raises, the catch-all logs
    one error and redirects to the profile listing, and no request leaves
    for the provider. *)
Theorem movie_list_without_api_key
    (w : World) (st : Store) (request : HttpRequest) (id : uuid) :
  owner_asks w st request id ->
  lookup "OMDB_API_KEY" (settings w) = None ->
  run (MovieList_get request id) w st
  = (Returned to_profile_list,
     {| store := st;
        trace := [Log ERROR
                    "Unexpected error in MovieList view: 'Settings' object has no attribute 'OMDB_API_KEY'"] |}).
Proof.
  intros Howner Hkey. pass_gate Howner Hkey. reflexivity.
Qed.

Module Unconfigured.

Definition world : World :=
  {| settings := [("DEBUG", PBool true)];
     http := fun _ => Responded {| status_code := 200;
                                   body_json := Some Demo.ok_body;
      body_error := NotJSON |};
     json_error_is_RequestException := true;
     db_fault := fun _ => None;
     db_order := fun _ pk => pk;
     render_fault := fun _ => None;
     uuid4 := "" |}.

End Unconfigured.

Lemma Demo_alice_owns_kids_room (w : World) :
  db_fault w Profile_get = None ->
  db_fault w user_profiles_all = None ->
  owner_asks w Demo.db Demo.alice (p_uuid Demo.kids_room).
Proof.
  intros Hget Hall. split; [exact Hget|exact Hall| |].
  - simpl. repeat constructor; simpl; intuition discriminate.
  - exists Demo.kids_room. simpl. auto.
Qed.

Lemma movie_list_without_api_key_witness :
  run (MovieList_get Demo.alice (p_uuid Demo.kids_room))
      Unconfigured.world Demo.db
  = (Returned to_profile_list,
     {| store := Demo.db;
        trace := [Log ERROR
                    "Unexpected error in MovieList view: 'Settings' object has no attribute 'OMDB_API_KEY'"] |}).
Proof.
  apply (movie_list_without_api_key Unconfigured.world Demo.db Demo.alice
           (p_uuid Demo.kids_room)).
  - apply Demo_alice_owns_kids_room; reflexivity.
  - reflexivity.
Defined.

(** X7.  When the provider answers the owner's request with a status that
    is neither 4xx nor 5xx and a JSON object, the movie list is rendered
    with the value of the object's "Search" member, or with the empty list
    when the object has none (as in the provider's own "not found"
    answers), together with the profile UUID; there is no error message and
    nothing is logged. *)
Theorem movie_list_renders_search_member
    (w : World) (st : Store) (request : HttpRequest) (id : uuid)
    (key : pyval) (r : Response) (members : list (string * json)) :
  owner_asks w st request id ->
  lookup "OMDB_API_KEY" (settings w) = Some key ->
  http w (omdb_url (py_str key)) = Responded r ->
  status_passes r ->
  body_json r = Some (JObj members) ->
  render_fault w "movielist.html" = None ->
  run (MovieList_get request id) w st
  = (Returned
       (TemplateResponse "movielist.html"
          [("movies",
            CJson (match lookup "Search" members with
                   | Some found => found
                   | None => JArr []
                   end));
           ("profile_id", CStr id)]),
     {| store := st; trace := [HttpGet (omdb_url (py_str key)) 10] |}).
Proof.
  intros Howner Hkey Hhttp Hstatus Hbody Hrender.
  destruct (status_passes_tests r Hstatus) as [H4 H5].
  unfold omdb_url in *.
  pass_gate Howner Hkey.
  rewrite Hhttp. cbn [store trace]. rewrite H4, H5. cbn [store trace].
  rewrite Hbody. cbn [store trace]. rewrite Hrender. reflexivity.
Qed.

Module NotFound.

(** The provider's answer when the search has no result. *)
Definition answer : Response :=
  {| status_code := 200;
     body_json := Some (JObj [("Response", JStr "False");
                              ("Error", JStr "Movie not found!")]);
      body_error := NotJSON |}.

End NotFound.

Lemma movie_list_not_found_witness :
  run (MovieList_get Demo.alice (p_uuid Demo.kids_room))
      (Demo.world (Responded NotFound.answer)) Demo.db
  = (Returned
       (TemplateResponse "movielist.html"
          [("movies", CJson (JArr []));
           ("profile_id", CStr (p_uuid Demo.kids_room))]),
     {| store := Demo.db; trace := [HttpGet (omdb_url "k3y") 10] |}).
Proof.
  apply (movie_list_renders_search_member
           (Demo.world (Responded NotFound.answer)) Demo.db Demo.alice
           (p_uuid Demo.kids_room) (PStr "k3y") NotFound.answer
           [("Response", JStr "False"); ("Error", JStr "Movie not found!")]).
  - apply Demo_alice_owns_kids_room; reflexivity.
  - reflexivity.
  - reflexivity.
  - left. reflexivity.
  - reflexivity.
  - reflexivity.
Defined.

Definition is_dict (j : json) : bool :=
  match j with JObj _ => true | _ => false end.

(** X9.  A body the view cannot use, under a status that passes, is not
    reported on the movie-list page: JSON that is not an object fails at
    [data.get], and a body that is not JSON fails at [response.json()]
    with a plain [ValueError] where the installed requests predates its own
    [JSONDecodeError]; either way the catch-all logs one error after the
    single request and redirects to the profile listing. *)
Theorem movie_list_unusable_body_redirects
    (w : World) (st : Store) (request : HttpRequest) (id : uuid)
    (key : pyval) (r : Response) :
  owner_asks w st request id ->
  lookup "OMDB_API_KEY" (settings w) = Some key ->
  http w (omdb_url (py_str key)) = Responded r ->
  status_passes r ->
  (exists j, body_json r = Some j /\ is_dict j = false)
  \/ (body_json r = None /\ json_error_is_RequestException w = false) ->
  exists msg,
    run (MovieList_get request id) w st
    = (Returned to_profile_list,
       {| store := st;
          trace := [HttpGet (omdb_url (py_str key)) 10;
                    Log ERROR
                      ("Unexpected error in MovieList view: " ++ msg)] |}).
Proof.
  intros Howner Hkey Hhttp Hstatus Hbody.
  destruct (status_passes_tests r Hstatus) as [H4 H5].
  unfold omdb_url in *.
  pass_gate Howner Hkey.
  rewrite Hhttp. cbn [store trace]. rewrite H4, H5. cbn [store trace].
  destruct Hbody as [[j [Hj Hnot]]|[Hnone Hold]].
  - rewrite Hj. destruct j; try discriminate Hnot;
      (eexists; reflexivity).
  - rewrite Hnone. destruct (body_error r); cbn [store trace];
      rewrite ?Hold; eexists; reflexivity.
Qed.

Module Legacy.

(** The small installation with an older requests, and a provider that
    answers with a page of HTML. *)
Definition world : World :=
  {| settings := Demo.conf;
     http := fun _ => Responded {| status_code := 200; body_json := None;
      body_error := NotJSON |};
     json_error_is_RequestException := false;
     db_fault := fun _ => None;
     db_order := fun _ pk => pk;
     render_fault := fun _ => None;
     uuid4 := "" |}.

End Legacy.

Lemma movie_list_unusable_body_witness :
  exists msg,
    run (MovieList_get Demo.alice (p_uuid Demo.kids_room))
        Legacy.world Demo.db
    = (Returned to_profile_list,
       {| store := Demo.db;
          trace := [HttpGet (omdb_url "k3y") 10;
                    Log ERROR
                      ("Unexpected error in MovieList view: " ++ msg)] |}).
Proof.
  apply (movie_list_unusable_body_redirects Legacy.world Demo.db Demo.alice
           (p_uuid Demo.kids_room) (PStr "k3y")
           {| status_code := 200; body_json := None;
      body_error := NotJSON |}).
  - apply Demo_alice_owns_kids_room; reflexivity.
  - reflexivity.
  - reflexivity.
  - left. reflexivity.
  - right. split; reflexivity.
Defined.

(** ** Title Detail and Playback, on a stored title *)

Lemma stored_title_found (st : Store) (id : uuid) (movie : Movie) :
  NoDup (map m_uuid (Movie_table st)) ->
  In movie (Movie_table st) ->
  m_uuid movie = id ->
  filter (fun m => String.eqb (m_uuid m) id) (Movie_table st) = [movie].
Proof.
  intros Hnd Hin Hid.
  destruct (filter_key_unique m_uuid String.eqb String.eqb_eq
              (Movie_table st) id Hnd) as [m [Hfilter _]].
  { rewrite <- Hid. apply in_map. exact Hin. }
  assert (Hm : In movie (filter (fun m => String.eqb (m_uuid m) id)
                           (Movie_table st))).
  { apply filter_In. split; [exact Hin|]. apply String.eqb_eq. exact Hid. }
  rewrite Hfilter in Hm. destruct Hm as [->|[]]. exact Hfilter.
Qed.

(** X11.  For a stored title, Title Detail renders the detail page with
    that title, whoever asks, and logs nothing.  (Title UUIDs are pairwise
    different, the lookup answers and the template renders.) *)
Theorem detail_renders_stored_title
    (w : World) (st : Store) (request : HttpRequest) (id : uuid)
    (movie : Movie) :
  NoDup (map m_uuid (Movie_table st)) ->
  In movie (Movie_table st) ->
  m_uuid movie = id ->
  db_fault w Movie_get = None ->
  render_fault w "moviedetail.html" = None ->
  run (MovieDetail_get request id) w st
  = (Returned
       (TemplateResponse "moviedetail.html" [("movie", CMovie movie)]),
     {| store := st; trace := [] |}).
Proof.
  intros Hnd Hin Hid Hget Hrender.
  unfold_views. rewrite Hget. cbn [store trace].
  rewrite (stored_title_found st id movie Hnd Hin Hid). cbn [store trace].
  rewrite Hrender. reflexivity.
Qed.

Lemma detail_witness :
  run (MovieDetail_get Demo.bob (m_uuid Demo.feature))
      (Demo.world Provider.unavailable) Demo.db
  = (Returned
       (TemplateResponse "moviedetail.html" [("movie", CMovie Demo.feature)]),
     {| store := Demo.db; trace := [] |}).
Proof.
  apply (detail_renders_stored_title (Demo.world Provider.unavailable)
           Demo.db Demo.bob (m_uuid Demo.feature) Demo.feature).
  - simpl. repeat constructor. simpl. tauto.
  - simpl. auto.
  - reflexivity.
  - reflexivity.
  - reflexivity.
Defined.

Lemma related_none {A : Type} (pk : A -> N) (rank : N -> N)
    (rel : list (N * N)) (key : N) (table : list A) :
  (forall row, In row rel -> fst row <> key) ->
  related pk rank rel key table = [].
Proof.
  intros H. unfold related.
  assert (Hjoined : joined pk rel key table = []).
  { unfold joined. induction rel as [|row rel IH]; simpl; [reflexivity|].
    destruct (fst row =? key) eqn:E.
    - apply N.eqb_eq in E. exfalso. exact (H row (or_introl eq_refl) E).
    - apply IH. intros r Hr. apply H. right. exact Hr. }
  rewrite Hjoined. reflexivity.
Qed.

(** X13.  A stored title without any attached video still plays: Playback
    renders its page with an empty collection, and logs nothing. *)
Theorem playback_without_videos_is_empty
    (w : World) (st : Store) (request : HttpRequest) (id : uuid)
    (movie : Movie) :
  NoDup (map m_uuid (Movie_table st)) ->
  In movie (Movie_table st) ->
  m_uuid movie = id ->
  (forall row, In row (Movie_video st) -> fst row <> m_id movie) ->
  db_fault w Movie_get = None ->
  db_fault w movie_video_values = None ->
  render_fault w "playmovie.html" = None ->
  run (PlayMovie_get request id) w st
  = (Returned (TemplateResponse "playmovie.html" [("movie", CRecords [])]),
     {| store := st; trace := [] |}).
Proof.
  intros Hnd Hin Hid Hnone Hget Hvalues Hrender.
  unfold_views. rewrite Hget. cbn [store trace].
  rewrite (stored_title_found st id movie Hnd Hin Hid). cbn [store trace].
  rewrite Hvalues. cbn [store trace].
  rewrite (related_none v_id _ _ _ (Video_table st) Hnone). cbn [map].
  rewrite Hrender. reflexivity.
Qed.

Module Bare.

(** The catalog of the small installation with the attachments removed. *)
Definition db : Store :=
  {| Profile_table := Profile_table Demo.db;
     Movie_table := Movie_table Demo.db;
     Video_table := Video_table Demo.db;
     CustomUser_profiles := CustomUser_profiles Demo.db;
     Movie_video := [] |}.

End Bare.

Lemma playback_without_videos_witness :
  run (PlayMovie_get Demo.alice (m_uuid Demo.feature))
      (Demo.world Provider.unavailable) Bare.db
  = (Returned (TemplateResponse "playmovie.html" [("movie", CRecords [])]),
     {| store := Bare.db; trace := [] |}).
Proof.
  apply (playback_without_videos_is_empty (Demo.world Provider.unavailable)
           Bare.db Demo.alice (m_uuid Demo.feature) Demo.feature).
  - simpl. repeat constructor. simpl. tauto.
  - simpl. auto.
  - reflexivity.
  - intros row [].
  - reflexivity.
  - reflexivity.
  - reflexivity.
Defined.

(** ** Who gets past the ownership test *)

Lemma stored_profile_found (st : Store) (id : uuid) (p : Profile) :
  NoDup (map p_uuid (Profile_table st)) ->
  In p (Profile_table st) ->
  p_uuid p = id ->
  filter (fun q => String.eqb (p_uuid q) id) (Profile_table st) = [p].
Proof.
  intros Hnd Hin Hid.
  destruct (filter_key_unique p_uuid String.eqb String.eqb_eq
              (Profile_table st) id Hnd) as [q [Hfilter _]].
  { rewrite <- Hid. apply in_map. exact Hin. }
  assert (Hp : In p (filter (fun q => String.eqb (p_uuid q) id)
                       (Profile_table st))).
  { apply filter_In. split; [exact Hin|]. apply String.eqb_eq. exact Hid. }
  rewrite Hfilter in Hp. destruct Hp as [->|[]]. exact Hfilter.
Qed.

(** X14.  Asking for the movies of a stored profile of another account is
    answered silently when the database answers: the redirect to the
    profile listing, and not a single log record (a UUID that does not
    exist leaves a warning, this leaves nothing). *)
Theorem foreign_profile_is_not_logged
    (w : World) (st : Store) (request : HttpRequest) (id : uuid)
    (p : Profile) :
  db_fault w Profile_get = None ->
  db_fault w user_profiles_all = None ->
  NoDup (map p_uuid (Profile_table st)) ->
  In p (Profile_table st) ->
  p_uuid p = id ->
  ~ In (user_pk (user request), p_id p) (CustomUser_profiles st) ->
  run (MovieList_get request id) w st
  = (Returned to_profile_list, {| store := st; trace := [] |}).
Proof.
  intros Hget Hall Hnd Hin Hid Hno.
  unfold_views. rewrite Hget. cbn [store trace].
  rewrite (stored_profile_found st id p Hnd Hin Hid). cbn [store trace].
  rewrite Hall. cbn [store trace].
  rewrite (not_owned_not_in st (user request) p Hno). reflexivity.
Qed.

Lemma foreign_profile_silent_witness :
  run (MovieList_get Demo.bob (p_uuid Demo.kids_room))
      (Demo.world Provider.unavailable) Demo.db
  = (Returned to_profile_list, {| store := Demo.db; trace := [] |}).
Proof.
  apply (foreign_profile_is_not_logged (Demo.world Provider.unavailable)
           Demo.db Demo.bob (p_uuid Demo.kids_room) Demo.kids_room).
  - reflexivity.
  - reflexivity.
  - simpl. repeat constructor; simpl; intuition discriminate.
  - simpl. auto.
  - reflexivity.
  - simpl. intros [H|[H|[]]]; discriminate.
Defined.

Lemma owner_request_sent (w : World) (st : Store) (request : HttpRequest)
    (id : uuid) (key : pyval) :
  owner_asks w st request id ->
  lookup "OMDB_API_KEY" (settings w) = Some key ->
  exists logs,
    trace_of (run (MovieList_get request id) w st)
    = HttpGet (omdb_url (py_str key)) 10 :: logs.
Proof.
  intros Howner Hkey. unfold omdb_url.
  pass_gate Howner Hkey.
  crunch; eexists; reflexivity.
Qed.

(** X15.  For the owner of the profile, with an API key configured, Movie
    List always asks the provider, whatever the provider then does: the
    first thing the run records is the request to the search URL built
    from the configured key, with the 10 second timeout. *)
Theorem owner_request_reaches_provider
    (w : World) (st : Store) (request : HttpRequest) (id : uuid)
    (key : pyval) :
  owner_asks w st request id ->
  lookup "OMDB_API_KEY" (settings w) = Some key ->
  exists logs,
    trace_of (run (MovieList_get request id) w st)
    = HttpGet ("http://www.omdbapi.com/?s=movie&apikey=" ++ py_str key) 10
      :: logs.
Proof. exact (owner_request_sent w st request id key). Qed.

Lemma owner_request_witness :
  exists logs,
    trace_of (run (MovieList_get Demo.alice (p_uuid Demo.kids_room))
                (Demo.world Provider.unavailable) Demo.db)
    = HttpGet "http://www.omdbapi.com/?s=movie&apikey=k3y" 10 :: logs.
Proof.
  apply (owner_request_reaches_provider (Demo.world Provider.unavailable)
           Demo.db Demo.alice (p_uuid Demo.kids_room) (PStr "k3y")).
  - apply Demo_alice_owns_kids_room; reflexivity.
  - reflexivity.
Defined.

(** X16.  Creating, then browsing.  After a successful submission the
    account that created the profile gets past the ownership test of Movie
    List with the new profile's UUID: the request to the provider is
    sent. *)
Theorem creator_can_browse_new_profile
    (clean : QueryDict -> ErrorDict * ProfileFields)
    (w : World) (st : Store) (request : HttpRequest) (key : pyval) :
  POST request <> [] ->
  fst (clean (POST request)) = [] ->
  db_fault w Profile_create = None ->
  db_fault w user_profiles_add = None ->
  NoDup (map p_uuid (Profile_table st)) ->
  (forall p, In p (Profile_table st) -> p_uuid p <> uuid4 w) ->
  db_fault w Profile_get = None ->
  db_fault w user_profiles_all = None ->
  lookup "OMDB_API_KEY" (settings w) = Some key ->
  exists logs,
    trace_of
      (run (MovieList_get request (uuid4 w)) w
         (store_of (run (ProfileCreate_post clean request) w st)))
    = HttpGet (omdb_url (py_str key)) 10 :: logs.
Proof.
  intros Hne Hok Hcreate Hadd Hnd Hfresh Hget Hall Hkey.
  apply owner_request_sent; [|exact Hkey].
  rewrite (ProfileCreate_post_success clean w st request
             Hne Hok Hcreate Hadd Hfresh).
  unfold store_of. cbn [snd store].
  split; [exact Hget|exact Hall| |]; cbn [Profile_table CustomUser_profiles].
  - rewrite map_app. simpl. apply NoDup_snoc; [exact Hnd|].
    intros Hin. apply in_map_iff in Hin. destruct Hin as [p [Hid Hp]].
    exact (Hfresh p Hp Hid).
  - exists (new_profile w st (snd (clean (POST request)))).
    split; [apply in_or_app; right; simpl; auto|].
    split; [reflexivity|]. apply with_join_row_In.
Qed.

Lemma creator_can_browse_witness :
  exists logs,
    trace_of
      (run (MovieList_get Submission.kids_room_again
              "33333333-3333-4333-8333-333333333333")
         (Demo.world Provider.unavailable)
         (store_of (run (ProfileCreate_post ProfileForm_clean
                           Submission.kids_room_again)
                      (Demo.world Provider.unavailable) Demo.db)))
    = HttpGet (omdb_url "k3y") 10 :: logs.
Proof.
  apply (creator_can_browse_new_profile ProfileForm_clean
           (Demo.world Provider.unavailable) Demo.db
           Submission.kids_room_again (PStr "k3y")).
  - discriminate.
  - reflexivity.
  - reflexivity.
  - reflexivity.
  - simpl. repeat constructor; simpl; intuition discriminate.
  - intros p Hp. simpl in Hp. destruct Hp as [<-|[<-|[]]]; discriminate.
  - reflexivity.
  - reflexivity.
  - reflexivity.
Defined.
